(** * Sidetree: the MongoDB operation store, the fetch result and the
      HTTP error surface

    A shallow embedding of [lib/core/MongoDbOperationStore.ts] and
    [lib/common/IFetchResult.ts], together with the part of the MongoDB
    driver the store talks to (collections, unique indexes, queries, sorting
    and unordered bulk inserts).  The numbers of the store hold integers: a
    JavaScript number is modelled by the integer it holds, a [Z] that a
    double can represent ([Js.isNumber]); a BSON [Long] is a separate type,
    and so is what the driver hands back for a stored long. *)

From Stdlib Require Import ZArith List String Ascii Bool Lia Strings.Byte.
From Stdlib Require Import Sorting.Sorted Sorting.Permutation.
Import ListNotations.

Local Open Scope Z_scope.

(** ** JavaScript values the store relies on *)

Module Js.

(** [if (n)] on a number: zero is falsy, every other integer is truthy. *)
Definition truthy_number (n : Z) : bool := negb (n =? 0).

(** [s ? s : d] on a string: the empty string is falsy. *)
Definition truthy_string (s : string) : bool :=
  match s with
  | EmptyString => false
  | String _ _ => true
  end.

(** The double nearest to an integer, ties going to the even mantissa: what
    an integer becomes when it is made a JavaScript number.  (For integers
    short of the largest double, which covers every 64-bit integer.) *)
Definition toDouble (v : Z) : Z :=
  let a := Z.abs v in
  if a <? 2 ^ 53 then v
  else
    let e := Z.log2 a - 52 in
    let q := a / 2 ^ e in
    let r := a mod 2 ^ e in
    let half := 2 ^ (e - 1) in
    let q' := if (half <? r) || ((r =? half) && Z.odd q) then q + 1 else q in
    Z.sgn v * (q' * 2 ^ e).

(** The integer is a JavaScript number: a double holds it exactly. *)
Definition isNumber (v : Z) : bool := toDouble v =? v.

(** A thrown JavaScript error: its [name], and its [code] when it has one. *)
Record Error : Type := mkError {
  name : string;
  code : option Z;
  message : string
}.

(** The outcome of an [async] method: it resolves or it rejects. *)
Inductive Outcome (A : Type) : Type :=
| Resolved (a : A)
| Rejected (e : Error).

Arguments Resolved {A} a.
Arguments Rejected {A} e.

End Js.

(** ** The driver's 64-bit integer *)

Module Long.

Record t : Type := mk { value : Z }.

Definition TWO_PWR_63 : Z := 2 ^ 63.
Definition MIN_VALUE : t := mk (- TWO_PWR_63).
Definition MAX_VALUE : t := mk (TWO_PWR_63 - 1).

(** [Long.fromNumber], on the integer a JavaScript number holds: values
    beyond the range saturate. *)
Definition fromNumber (v : Z) : t :=
  if v <=? - TWO_PWR_63 then MIN_VALUE
  else if v + 1 >=? TWO_PWR_63 then MAX_VALUE
  else mk v.

(** [Long.toNumber]: the JavaScript number nearest to the long. *)
Definition toNumber (l : t) : Z := Js.toDouble (value l).

Definition JS_INT_MAX : Z := 2 ^ 53.

(** The longs the driver turns into numbers: those within 53 bits, which a
    number holds exactly. *)
Definition promotable (l : t) : bool :=
  (- JS_INT_MAX <=? value l) && (value l <=? JS_INT_MAX).

(** What [find] hands back for a stored long: a number, or the Long object
    itself. *)
Inductive promoted : Type :=
| AsNumber (v : Z)
| AsLong (l : t).

(** The driver's reading of a stored long (its option [promoteLongs], on by
    default). *)
Definition promote (l : t) : promoted :=
  if promotable l then AsNumber (toNumber l) else AsLong l.

(** The integer a promoted long stands for. *)
Definition integer (p : promoted) : Z :=
  match p with
  | AsNumber v => v
  | AsLong l => value l
  end.

Definition in_range (v : Z) : Prop := - TWO_PWR_63 <= v <= TWO_PWR_63 - 1.

Definition in_rangeb (v : Z) : bool :=
  (- TWO_PWR_63 <=? v) && (v <=? TWO_PWR_63 - 1).

End Long.

(** ** BSON values and their order *)

Module Bson.

Inductive Value : Type :=
| Null                      (* also what a missing field reads as *)
| Number (n : Z)            (* a JavaScript number *)
| LongV (l : Long.t)        (* a 64-bit integer *)
| Str (s : string)
| Binary (b : list byte).

(** The bracket of a value in the comparison order: null, numbers, strings,
    binary data. *)
Definition rank (v : Value) : Z :=
  match v with
  | Null => 1
  | Number _ | LongV _ => 2
  | Str _ => 3
  | Binary _ => 6
  end.

Fixpoint compare_bytes (a b : list byte) : comparison :=
  match a, b with
  | [], [] => Eq
  | [], _ :: _ => Lt
  | _ :: _, [] => Gt
  | x :: a', y :: b' =>
      match N.compare (Byte.to_N x) (Byte.to_N y) with
      | Eq => compare_bytes a' b'
      | c => c
      end
  end.

Definition numeric (v : Value) : Z :=
  match v with
  | Number n => n
  | LongV l => Long.value l
  | _ => 0
  end.

(** Values of different brackets compare by bracket; numbers compare by
    value whatever their width; binary data by length, then content. *)
Definition compare (a b : Value) : comparison :=
  match Z.compare (rank a) (rank b) with
  | Eq =>
      match a, b with
      | Str s, Str s' => String.compare s s'
      | Binary x, Binary y =>
          match Nat.compare (List.length x) (List.length y) with
          | Eq => compare_bytes x y
          | c => c
          end
      | _, _ => Z.compare (numeric a) (numeric b)
      end
  | c => c
  end.

Definition eqb (a b : Value) : bool :=
  match compare a b with Eq => true | _ => false end.

(** [$gt]: only values of the same bracket are compared. *)
Definition gtb (a b : Value) : bool :=
  (rank a =? rank b) &&
  match compare a b with Gt => true | _ => false end.

Fixpoint compare_keys (a b : list Value) : comparison :=
  match a, b with
  | [], [] => Eq
  | [], _ :: _ => Lt
  | _ :: _, [] => Gt
  | x :: a', y :: b' =>
      match compare x y with
      | Eq => compare_keys a' b'
      | c => c
      end
  end.

Definition keys_eqb (a b : list Value) : bool :=
  match compare_keys a b with Eq => true | _ => false end.

End Bson.

(** ** The stored document *)

Module IMongoOperation.

(** The operation as MongoDB stores it.  [opIndex] is the shorter name of
    the operation index; [transactionNumber] is a long. *)
Record t : Type := mk {
  didUniqueSuffix : string;
  operationBufferBsonBinary : list byte;
  opIndex : Z;
  transactionNumber : Long.t;
  transactionTime : Z;
  batchFileHash : string
}.

(** The value a document holds under a property name; a property the
    document does not have reads as null. *)
Definition field (k : string) (d : t) : Bson.Value :=
  if (k =? "didUniqueSuffix")%string then Bson.Str (didUniqueSuffix d)
  else if (k =? "operationBufferBsonBinary")%string
       then Bson.Binary (operationBufferBsonBinary d)
  else if (k =? "opIndex")%string then Bson.Number (opIndex d)
  else if (k =? "transactionNumber")%string
       then Bson.LongV (transactionNumber d)
  else if (k =? "transactionTime")%string then Bson.Number (transactionTime d)
  else if (k =? "batchFileHash")%string then Bson.Str (batchFileHash d)
  else Bson.Null.

End IMongoOperation.

(** ** The part of the MongoDB driver the store uses *)

Module Mongo.

Definition Document : Type := IMongoOperation.t.

(** An index: the property names of its key, and whether it is unique. *)
Record IndexSpec : Type := mkIndex {
  keys : list string;
  unique : bool
}.

Record Collection : Type := mkCollection {
  collectionName : string;
  documents : list Document;      (* in insertion order *)
  indexes : list IndexSpec
}.

(** A database: its collections, as [db.collections()] lists them. *)
Definition Db : Type := list Collection.

(** *** Queries *)

Inductive Condition : Type :=
| Is (v : Bson.Value)            (* { k: v } *)
| Gt (v : Bson.Value).           (* { k: { $gt: v } } *)

(** A filter; the empty filter [{}] matches every document. *)
Definition Filter : Type := list (string * Condition).

Definition holds (d : Document) (kc : string * Condition) : bool :=
  match snd kc with
  | Is v => Bson.eqb (IMongoOperation.field (fst kc) d) v
  | Gt v => Bson.gtb (IMongoOperation.field (fst kc) d) v
  end.

Definition matches (q : Filter) (d : Document) : bool := forallb (holds d) q.

Definition find (q : Filter) (c : Collection) : list Document :=
  filter (matches q) (documents c).

Definition deleteMany (q : Filter) (c : Collection) : Collection :=
  mkCollection (collectionName c)
               (filter (fun d => negb (matches q d)) (documents c))
               (indexes c).

(** *** Sorting a cursor *)

(** A sort specification: property names with a direction, 1 ascending and
    -1 descending. *)
Definition SortSpec : Type := list (string * Z).

Fixpoint compare_by (spec : SortSpec) (a b : Document) : comparison :=
  match spec with
  | [] => Eq
  | (k, dir) :: spec' =>
      match Bson.compare (IMongoOperation.field k a)
                         (IMongoOperation.field k b) with
      | Eq => compare_by spec' a b
      | c => if dir <? 0 then CompOpp c else c
      end
  end.

(** [a] may stand before [b] in a cursor sorted by [spec]. *)
Definition before (spec : SortSpec) (a b : Document) : Prop :=
  compare_by spec a b <> Datatypes.Gt.

(** What the driver promises of [cursor.sort(spec)]: the same documents,
    in an order the specification allows.  Documents that compare equal may
    come in any order. *)
Definition sorts_to (spec : SortSpec) (l out : list Document) : Prop :=
  Permutation l out /\ Sorted (before spec) out.

Fixpoint place (spec : SortSpec) (x : Document) (l : list Document)
  : list Document :=
  match l with
  | [] => [x]
  | y :: l' =>
      match compare_by spec x y with
      | Datatypes.Gt => y :: place spec x l'
      | _ => x :: l
      end
  end.

(** A sort that keeps documents that compare equal in the order it found
    them. *)
Definition sort (spec : SortSpec) (l : list Document) : list Document :=
  fold_right (place spec) [] l.

(** *** Indexes and inserts *)

Definition key_of (i : IndexSpec) (d : Document) : list Bson.Value :=
  map (fun k => IMongoOperation.field k d) (keys i).

(** [d] collides with a stored document on the unique index [i]. *)
Definition collides (docs : list Document) (d : Document) (i : IndexSpec)
  : bool :=
  unique i && existsb (fun d' => Bson.keys_eqb (key_of i d) (key_of i d')) docs.

Definition DUPLICATE_KEY : Z := 11000.

(** One insert: refused with the duplicate key code when a unique index
    forbids it. *)
Definition insertOne (d : Document) (c : Collection)
  : Collection * option Z :=
  if existsb (collides (documents c) d) (indexes c)
  then (c, Some DUPLICATE_KEY)
  else (mkCollection (collectionName c) (documents c ++ [d]) (indexes c), None).

(** The inserts of an unordered bulk operation: every one is attempted, and
    the codes of the refused ones are collected. *)
Fixpoint insertAll (batch : list Document) (c : Collection)
  : Collection * list Z :=
  match batch with
  | [] => (c, [])
  | d :: batch' =>
      let (c1, e) := insertOne d c in
      let (c2, es) := insertAll batch' c1 in
      (c2, match e with Some x => x :: es | None => es end)
  end.

Definition BulkWriteError (code : Z) : Js.Error :=
  Js.mkError "BulkWriteError" (Some code) "write error".

Definition MongoError (msg : string) : Js.Error :=
  Js.mkError "MongoError" None msg.

(** [batch.execute()] of an unordered bulk operation of inserts.  An empty
    batch is an error of its own; write errors are reported once all inserts
    were attempted, under the code of the first. *)
Definition execute (batch : list Document) (c : Collection)
  : Collection * option Js.Error :=
  match batch with
  | [] => (c, Some (MongoError "Invalid Operation, no operations specified"))
  | _ :: _ =>
      let (c', errs) := insertAll batch c in
      (c', match errs with
           | [] => None
           | code :: _ => Some (BulkWriteError code)
           end)
  end.

(** [createIndex(keys, { unique })]; the store calls it only on a collection
    it has just created, so no stored document can stand in its way. *)
Definition createIndex (ks : list string) (u : bool) (c : Collection)
  : Collection :=
  mkCollection (collectionName c) (documents c) (indexes c ++ [mkIndex ks u]).

(** *** Collections of a database *)

Definition collections (db : Db) : list Collection := db.

Fixpoint collection (n : string) (db : Db) : Collection :=
  match db with
  | [] => mkCollection n [] []
  | c :: db' => if (collectionName c =? n)%string then c else collection n db'
  end.

Definition createCollection (n : string) (db : Db) : Db * Collection :=
  let c := mkCollection n [] [] in (db ++ [c], c).

(** Writing a collection back after an operation on it. *)
Fixpoint update (c : Collection) (db : Db) : Db :=
  match db with
  | [] => [c]
  | c0 :: db' =>
      if (collectionName c0 =? collectionName c)%string then c :: db'
      else c0 :: update c db'
  end.

End Mongo.

(** ** Operations *)

Module IResolvedTransaction.

(** Modelled from the spec: the declaration of a resolved transaction is not
    among the sources; these are the properties [convertToOperation] sets.
    [N] is what the property [transactionNumber] holds: declared a number,
    it is whatever the caller puts there. *)
Record record (N : Type) : Type := mk {
  transactionNumber : N;
  transactionTime : Z;
  transactionTimeHash : string;
  anchorFileHash : string;
  batchFileHash : string
}.

Arguments mk {N}.
Arguments transactionNumber {N}.
Arguments transactionTime {N}.
Arguments transactionTimeHash {N}.
Arguments anchorFileHash {N}.
Arguments batchFileHash {N}.

(** A resolved transaction as declared: its transaction number is a
    number. *)
Definition t : Type := record Z.

End IResolvedTransaction.

Module Operation.

(** Modelled from the spec: the [Operation] class is not among the sources.
    An Operation Record carries the DID suffix, the raw operation bytes, the
    position in its batch, and the anchoring coordinates.  The store is
    given anchored operations: the coordinates are set, as the source asserts
    with [!] wherever it reads them.  [N] is what the property
    [transactionNumber] holds. *)
Record record (N : Type) : Type := mk {
  didUniqueSuffix : string;
  operationBuffer : list byte;
  operationIndex : Z;
  transactionNumber : N;
  transactionTime : Z;
  batchFileHash : string
}.

Arguments mk {N}.
Arguments didUniqueSuffix {N}.
Arguments operationBuffer {N}.
Arguments operationIndex {N}.
Arguments transactionNumber {N}.
Arguments transactionTime {N}.
Arguments batchFileHash {N}.

(** An operation as the class declares it, and as [put] is given it: its
    transaction number is a number. *)
Definition t : Type := record Z.

(** An operation as it is built from a document of [find]: its transaction
    number is what the driver handed back for the stored long, a number or
    a Long object. *)
Definition found : Type := record Long.promoted.

Section Create.

(** Reading the DID suffix out of the raw operation bytes; the parser is not
    among the sources. *)
Variable didUniqueSuffixOf : list byte -> string.

(** Modelled from the spec: [Operation.createAnchoredOperation] is not among
    the sources.  It is given the operation bytes, the resolved transaction
    and the operation index, and nothing else: the DID suffix of the
    operation it builds is the one its bytes encode, and its transaction
    number is whatever the resolved transaction holds. *)
Definition createAnchoredOperation {N : Type} (operationBuffer : list byte)
    (resolvedTransaction : IResolvedTransaction.record N) (operationIndex : Z)
  : record N :=
  mk (didUniqueSuffixOf operationBuffer)
     operationBuffer
     operationIndex
     (IResolvedTransaction.transactionNumber resolvedTransaction)
     (IResolvedTransaction.transactionTime resolvedTransaction)
     (IResolvedTransaction.batchFileHash resolvedTransaction).

(** An operation the class can have built: its DID suffix is the one its
    bytes encode. *)
Definition wellFormed (o : t) : Prop :=
  didUniqueSuffix o = didUniqueSuffixOf (operationBuffer o).

End Create.

(** A declared operation among the found ones: its transaction number, held
    as a number. *)
Definition asFound (o : t) : found :=
  mk (didUniqueSuffix o) (operationBuffer o) (operationIndex o)
     (Long.AsNumber (transactionNumber o))
     (transactionTime o) (batchFileHash o).

(** A found operation is a declared one when its transaction number is held
    as a number. *)
Definition asDeclared (o : found) : option t :=
  match transactionNumber o with
  | Long.AsNumber v =>
      Some (mk (didUniqueSuffix o) (operationBuffer o) (operationIndex o) v
               (transactionTime o) (batchFileHash o))
  | Long.AsLong _ => None
  end.

(** The key the store's index is on. *)
Definition key (o : t) : string * Z * Z :=
  (didUniqueSuffix o, transactionNumber o, operationIndex o).

(** The order [get] documents: by transaction number, then operation
    index. *)
Definition le (a b : found) : Prop :=
  Long.integer (transactionNumber a) < Long.integer (transactionNumber b) \/
  (Long.integer (transactionNumber a) = Long.integer (transactionNumber b) /\
   operationIndex a <= operationIndex b).

Definition leb (a b : found) : bool :=
  (Long.integer (transactionNumber a) <? Long.integer (transactionNumber b)) ||
  ((Long.integer (transactionNumber a) =? Long.integer (transactionNumber b)) &&
   (operationIndex a <=? operationIndex b)).

End Operation.

(** ** The store *)

Module MongoDbOperationStore.

Record t : Type := mk {
  serverUrl : string;
  databaseName : string;
  operationCollectionName : string;
  collection : option string      (* the collection handle, once initialized *)
}.

Definition constructor (serverUrl : string)
    (databaseName operationCollectionName : option string) : t :=
  mk serverUrl
     (match databaseName with
      | Some n => if Js.truthy_string n then n else "sidetree"%string
      | None => "sidetree"%string
      end)
     (match operationCollectionName with
      | Some n => if Js.truthy_string n then n else "operations"%string
      | None => "operations"%string
      end)
     None.

Definition INDEX_KEYS : list string :=
  ["didUniqueSuffix"; "transactionNumber"; "opIndex"]%string.

(** If the operation collection exists, use it; else create it, with its
    unique index, then use it. *)
Definition initialize (this : t) (db : Mongo.Db) : t * Mongo.Db :=
  let collections := Mongo.collections db in
  let collectionNames := map Mongo.collectionName collections in
  let this' := mk (serverUrl this) (databaseName this)
                  (operationCollectionName this)
                  (Some (operationCollectionName this)) in
  if existsb (String.eqb (operationCollectionName this)) collectionNames
  then (this', db)
  else
    let (db1, c) := Mongo.createCollection (operationCollectionName this) db in
    (this', Mongo.update (Mongo.createIndex INDEX_KEYS true c) db1).

Definition convertToMongoOperation (operation : Operation.t)
  : IMongoOperation.t :=
  IMongoOperation.mk
    (Operation.didUniqueSuffix operation)
    (Operation.operationBuffer operation)
    (Operation.operationIndex operation)
    (Long.fromNumber (Operation.transactionNumber operation))
    (Operation.transactionTime operation)
    (Operation.batchFileHash operation).

(** Using [this.collection!] before [initialize] ran. *)
Definition TypeError : Js.Error :=
  Js.mkError "TypeError" None "Cannot read property of undefined".

(** [error.code !== n] *)
Definition code_differs (e : Js.Error) (n : Z) : bool :=
  match Js.code e with
  | Some c => negb (c =? n)
  | None => true
  end.

(** The test of the [catch] block of [put]: the error is thrown again unless
    it is a bulk write error with the duplicate key code. *)
Definition rethrown (error : Js.Error) : bool :=
  negb (Js.name error =? "BulkWriteError")%string || code_differs error 11000.

Section Store.

Variable didUniqueSuffixOf : list byte -> string.

(** The inverse direction, on a document as [find] returns it: the driver
    has promoted the long, and the transaction number passed on is whatever
    that gave, a number or a Long object. *)
Definition convertToOperation (mongoOperation : IMongoOperation.t)
  : Operation.found :=
  Operation.createAnchoredOperation didUniqueSuffixOf
    (IMongoOperation.operationBufferBsonBinary mongoOperation)
    (IResolvedTransaction.mk
       (Long.promote (IMongoOperation.transactionNumber mongoOperation))
       (IMongoOperation.transactionTime mongoOperation)
       "unavailable"
       "unavailable"
       (IMongoOperation.batchFileHash mongoOperation))
    (IMongoOperation.opIndex mongoOperation).

(** [put], over any bulk write [execute] the storage layer may offer. *)
Definition put_with
    (execute : list Mongo.Document -> Mongo.Collection ->
               Mongo.Collection * option Js.Error)
    (operations : list Operation.t) (this : t) (db : Mongo.Db)
  : Mongo.Db * Js.Outcome unit :=
  match collection this with
  | None => (db, Js.Rejected TypeError)
  | Some h =>
      let batch := map convertToMongoOperation operations in
      let (c', r) := execute batch (Mongo.collection h db) in
      (Mongo.update c' db,
       match r with
       | None => Js.Resolved tt
       | Some error =>
           if rethrown error then Js.Rejected error else Js.Resolved tt
       end)
  end.

Definition put : list Operation.t -> t -> Mongo.Db ->
                 Mongo.Db * Js.Outcome unit :=
  put_with Mongo.execute.

Definition GET_FILTER (didUniqueSuffix : string) : Mongo.Filter :=
  [("didUniqueSuffix"%string, Mongo.Is (Bson.Str didUniqueSuffix))].

Definition GET_SORT : Mongo.SortSpec :=
  [("transactionNumber"%string, 1); ("operationIndex"%string, 1)].

Definition get (didUniqueSuffix : string) (this : t) (db : Mongo.Db)
  : Js.Outcome (list Operation.found) :=
  match collection this with
  | None => Js.Rejected TypeError
  | Some h =>
      let mongoOperations :=
        Mongo.sort GET_SORT
          (Mongo.find (GET_FILTER didUniqueSuffix) (Mongo.collection h db)) in
      Js.Resolved (map convertToOperation mongoOperations)
  end.

(** Every answer [get] may give, whatever order the driver picks among the
    documents its sort specification does not tell apart. *)
Definition get_may_return (didUniqueSuffix : string) (this : t)
    (db : Mongo.Db) (operations : list Operation.found) : Prop :=
  exists h mongoOperations,
    collection this = Some h /\
    Mongo.sorts_to GET_SORT
      (Mongo.find (GET_FILTER didUniqueSuffix) (Mongo.collection h db))
      mongoOperations /\
    operations = map convertToOperation mongoOperations.

Definition delete (transactionNumber : option Z) (this : t) (db : Mongo.Db)
  : Mongo.Db * Js.Outcome unit :=
  match collection this with
  | None => (db, Js.Rejected TypeError)
  | Some h =>
      let c := Mongo.collection h db in
      let c' :=
        match transactionNumber with
        | Some n =>
            if Js.truthy_number n
            then Mongo.deleteMany
                   [("transactionNumber"%string,
                     Mongo.Gt (Bson.LongV (Long.fromNumber n)))] c
            else Mongo.deleteMany [] c
        | None => Mongo.deleteMany [] c
        end in
      (Mongo.update c' db, Js.Resolved tt)
  end.

(** The documents the store holds. *)
Definition stored (this : t) (db : Mongo.Db) : list Mongo.Document :=
  Mongo.documents (Mongo.collection (operationCollectionName this) db).

End Store.

End MongoDbOperationStore.

(** ** The result of a content fetch *)

(** Modelled from the spec: the declaration of [FetchResultCode] is not
    among the sources; these are the outcomes the fetch contract
    recognizes. *)
Inductive FetchResultCode : Type :=
| Success
| NotFound
| InvalidHash
| MaxSizeExceeded
| NotAFile.

(** [IFetchResult]: a return code, and the content when there is one. *)
Record IFetchResult : Type := mkFetchResult {
  code : FetchResultCode;
  content : option (list byte)
}.

Definition isSuccess (c : FetchResultCode) : bool :=
  match c with Success => true | _ => false end.

Definition hasContent (r : IFetchResult) : bool :=
  match content r with Some _ => true | None => false end.

(** ** The transactions endpoint *)

Module Edge.

(** Modelled from the spec: [ErrorCode] is not among the sources; the
    reorganization signal is the one code the spec and the test name. *)
Inductive ErrorCode : Type :=
| InvalidTransactionNumberOrTimeHash.

Definition errorCodeString (c : ErrorCode) : string :=
  match c with
  | InvalidTransactionNumberOrTimeHash => "InvalidTransactionNumberOrTimeHash"
  end.

(** Modelled from the spec: [ResponseStatus] is not among the sources. *)
Inductive ResponseStatus : Type :=
| Succeeded
| BadRequest
| ServerError.

Definition toHttpStatus (s : ResponseStatus) : Z :=
  match s with
  | Succeeded => 200
  | BadRequest => 400
  | ServerError => 500
  end.

(** Modelled from the spec: [RequestError] is not among the sources; the
    test builds it from a response status and an error code. *)
Record RequestError : Type := mkRequestError {
  responseStatus : ResponseStatus;
  errorCode : option ErrorCode
}.

(** What the transactions query can throw: a typed request error, or
    anything else (transport, parsing). *)
Inductive Failure : Type :=
| Typed (e : RequestError)
| Internal (detail : string).

Record Transaction : Type := mkTransaction {
  transactionNumber : Z;
  transactionTime : Z;
  transactionTimeHash : string;
  anchorFileHash : string
}.

#[local] Set Warnings "-register-all".

Inductive Json : Type :=
| JNull
| JNumber (n : Z)
| JString (s : string)
| JArray (l : list Json)
| JObject (fields : list (string * Json)).

#[local] Set Warnings "+register-all".

Fixpoint lookup (k : string) (fields : list (string * Json)) : option Json :=
  match fields with
  | [] => None
  | (k', v) :: fields' => if (k' =? k)%string then Some v else lookup k fields'
  end.

(** [body.k] on a parsed response body. *)
Definition property (k : string) (body : Json) : option Json :=
  match body with
  | JObject fields => lookup k fields
  | _ => None
  end.

Definition transactionJson (t : Transaction) : Json :=
  JObject [("transactionNumber"%string, JNumber (transactionNumber t));
           ("transactionTime"%string, JNumber (transactionTime t));
           ("transactionTimeHash"%string, JString (transactionTimeHash t));
           ("anchorFileHash"%string, JString (anchorFileHash t))].

Record Response : Type := mkResponse {
  status : Z;
  body : Json
}.

(** The query of [GET /transactions]: the checkpoint, when one is given. *)
Definition Query : Type := option (Z * string).

(** Modelled from the spec: the server ([src/bitcoin.ts]) is not among the
    sources.  A typed error of the transactions query is rendered under its
    own status with its code in the body field [code]; any other error is a
    server error that shows no internal detail. *)
Definition getTransactions
    (transactions : Query -> list Transaction + Failure) (q : Query)
  : Response :=
  match transactions q with
  | inl ts =>
      mkResponse (toHttpStatus Succeeded)
                 (JObject [("transactions"%string,
                            JArray (map transactionJson ts))])
  | inr (Typed e) =>
      mkResponse (toHttpStatus (responseStatus e))
                 (match errorCode e with
                  | Some c => JObject [("code"%string,
                                        JString (errorCodeString c))]
                  | None => JNull
                  end)
  | inr (Internal _) => mkResponse (toHttpStatus ServerError) JNull
  end.

(** Modelled from the spec: the synchronization service is not among the
    sources.  [timeHashOf] is the time hash the chain now associates with a
    transaction number, when it still resolves; [chain] lists the anchoring
    transactions in ascending order. *)
Definition transactionsSince (timeHashOf : Z -> option string)
    (chain : list Transaction) (q : Query) : list Transaction + Failure :=
  match q with
  | None => inl chain
  | Some (since, hash) =>
      match timeHashOf since with
      | Some h =>
          if (h =? hash)%string
          then inl (filter (fun t => since <? transactionNumber t) chain)
          else inr (Typed (mkRequestError BadRequest
                             (Some InvalidTransactionNumberOrTimeHash)))
      | None =>
          inr (Typed (mkRequestError BadRequest
                        (Some InvalidTransactionNumberOrTimeHash)))
      end
  end.

(** The error the test makes the transactions query throw. *)
Definition invalidHashError : Failure :=
  Typed (mkRequestError BadRequest (Some InvalidTransactionNumberOrTimeHash)).

End Edge.

(** ** Store states and call sequences *)

Module State.

Import MongoDbOperationStore.

(** The store is initialized and its collection stands in the database with
    the unique index of [initialize], and no other. *)
Definition ready (this : t) (db : Mongo.Db) : Prop :=
  collection this = Some (operationCollectionName this) /\
  In (operationCollectionName this) (map Mongo.collectionName db) /\
  Mongo.indexes (Mongo.collection (operationCollectionName this) db) =
    [Mongo.mkIndex INDEX_KEYS true].

(** The key of a stored document under the store's index. *)
Definition docKey (d : Mongo.Document) : string * Z * Z :=
  (IMongoOperation.didUniqueSuffix d,
   Long.value (IMongoOperation.transactionNumber d),
   IMongoOperation.opIndex d).

(** A call on the store. *)
Inductive Call : Type :=
| Initialize
| Put (operations : list Operation.t)
| Delete (transactionNumber : option Z).

Definition step (c : Call) (s : t * Mongo.Db) : t * Mongo.Db :=
  match c with
  | Initialize => initialize (fst s) (snd s)
  | Put operations => (fst s, fst (put operations (fst s) (snd s)))
  | Delete n => (fst s, fst (delete n (fst s) (snd s)))
  end.

(** The calls of a list, first to last. *)
Definition run (calls : list Call) (s : t * Mongo.Db) : t * Mongo.Db :=
  fold_left (fun s c => step c s) calls s.

(** The duplicate key class of storage errors. *)
Definition duplicateKeyClass (e : Js.Error) : Prop :=
  Js.name e = "BulkWriteError"%string /\ Js.code e = Some Mongo.DUPLICATE_KEY.

(** The handle of a store is unset, or names the store's own collection. *)
Definition handleOk (this : t) : Prop :=
  collection this = None \/
  collection this = Some (operationCollectionName this).

(** The documents of a list ascend by transaction number. *)
Definition ascendingByNumber (a b : Operation.found) : Prop :=
  Long.integer (Operation.transactionNumber a)
  <= Long.integer (Operation.transactionNumber b).

End State.

(** ** Sample data *)

Module Sample.

(** A parser for the samples: the bytes of an operation spell its DID
    suffix. *)
Definition didUniqueSuffixOf (b : list byte) : string := string_of_list_byte b.

Definition operation (did : string) (transactionNumber operationIndex : Z)
  : Operation.t :=
  Operation.mk did (list_byte_of_string did) operationIndex transactionNumber
               100 "QmBatch".

Definition store : MongoDbOperationStore.t :=
  fst (MongoDbOperationStore.initialize
         (MongoDbOperationStore.constructor "mongodb://localhost:27017"
                                            None None) []).

Definition emptyDb : Mongo.Db :=
  snd (MongoDbOperationStore.initialize
         (MongoDbOperationStore.constructor "mongodb://localhost:27017"
                                            None None) []).

(** The database after [put] of the given operations on the empty store. *)
Definition dbWith (operations : list Operation.t) : Mongo.Db :=
  fst (MongoDbOperationStore.put operations store emptyDb).

(** A storage layer that is down: every bulk write fails with a network
    error and writes nothing. *)
Definition outage (batch : list Mongo.Document) (c : Mongo.Collection)
  : Mongo.Collection * option Js.Error :=
  (c, Some (Js.mkError "MongoNetworkError" None "connection refused")).

End Sample.

(** * Properties *)

(** ** Longs *)

Lemma fromNumber_in_range (v : Z) :
  Long.in_range v -> Long.fromNumber v = Long.mk v.
Proof.
  unfold Long.in_range, Long.fromNumber, Long.MIN_VALUE, Long.MAX_VALUE.
  intros [Hlo Hhi].
  destruct (v <=? - Long.TWO_PWR_63) eqn:E1.
  - apply Z.leb_le in E1. f_equal. lia.
  - destruct (v + 1 >=? Long.TWO_PWR_63) eqn:E2; [| reflexivity].
    apply Z.geb_le in E2. f_equal. lia.
Qed.

Lemma fromNumber_is_long (v : Z) : Long.in_range (Long.value (Long.fromNumber v)).
Proof.
  unfold Long.in_range, Long.fromNumber, Long.MIN_VALUE, Long.MAX_VALUE.
  destruct (v <=? - Long.TWO_PWR_63) eqn:E1; cbn [Long.value].
  - unfold Long.TWO_PWR_63. lia.
  - destruct (v + 1 >=? Long.TWO_PWR_63) eqn:E2; cbn [Long.value].
    + unfold Long.TWO_PWR_63. lia.
    + apply Z.leb_gt in E1. rewrite Z.geb_leb in E2. apply Z.leb_gt in E2. lia.
Qed.

(** ** Numbers and promoted longs *)

Lemma toDouble_exact (v : Z) : Z.abs v <= 2 ^ 53 -> Js.toDouble v = v.
Proof.
  intros Hv. unfold Js.toDouble.
  destruct (Z.abs v <? 2 ^ 53) eqn:E; [reflexivity |].
  apply Z.ltb_ge in E.
  assert (Ha : Z.abs v = 2 ^ 53) by lia.
  rewrite Ha.
  destruct (Z.abs_eq_or_opp v) as [H | H]; rewrite H in Ha.
  - subst v. reflexivity.
  - assert (v = - 2 ^ 53) by lia. subst v. reflexivity.
Qed.

(** Integers beyond 53 bits that a double holds, and some it does not: the
    nearest double takes their place. *)
Example doubles :
  Js.isNumber (2 ^ 53) = true /\
  Js.isNumber (2 ^ 60) = true /\
  Js.isNumber (2 ^ 63 - 1024) = true /\
  Js.toDouble (2 ^ 53 + 1) = 2 ^ 53 /\
  Js.toDouble (2 ^ 53 + 3) = 2 ^ 53 + 4 /\
  Js.toDouble (2 ^ 63 - 1) = 2 ^ 63 /\
  Js.toDouble (2 ^ 63 + 1024) = 2 ^ 63 /\
  Js.toDouble (- (2 ^ 53 + 1)) = - 2 ^ 53 /\
  Long.toNumber Long.MAX_VALUE = 2 ^ 63.
Proof. repeat split; reflexivity. Qed.

Lemma promotable_spec (l : Long.t) :
  Long.promotable l = true <-> Z.abs (Long.value l) <= 2 ^ 53.
Proof.
  unfold Long.promotable, Long.JS_INT_MAX.
  rewrite andb_true_iff, !Z.leb_le. lia.
Qed.

(** Within 53 bits the driver hands back the number the long holds. *)
Lemma promote_number (l : Long.t) :
  Z.abs (Long.value l) <= 2 ^ 53 ->
  Long.promote l = Long.AsNumber (Long.value l).
Proof.
  intros Hv. unfold Long.promote, Long.toNumber.
  rewrite (proj2 (promotable_spec l) Hv). now rewrite toDouble_exact.
Qed.

(** Beyond 53 bits it hands back the Long object. *)
Lemma promote_long (l : Long.t) :
  2 ^ 53 < Z.abs (Long.value l) -> Long.promote l = Long.AsLong l.
Proof.
  intros Hv. unfold Long.promote.
  destruct (Long.promotable l) eqn:E; [| reflexivity].
  apply promotable_spec in E. lia.
Qed.

(** Either way, what it hands back stands for the integer stored. *)
Lemma integer_promote (l : Long.t) :
  Long.integer (Long.promote l) = Long.value l.
Proof.
  destruct (Z_le_gt_dec (Z.abs (Long.value l)) (2 ^ 53)) as [H | H].
  - now rewrite promote_number.
  - rewrite promote_long by lia. reflexivity.
Qed.

Lemma promote_injective (l l' : Long.t) :
  Long.promote l = Long.promote l' -> l = l'.
Proof.
  intros H. apply (f_equal Long.integer) in H.
  rewrite !integer_promote in H. destruct l, l'; cbn in H. now subst.
Qed.

(** ** The order on BSON values *)

Lemma compare_bytes_refl (a : list byte) : Bson.compare_bytes a a = Eq.
Proof.
  induction a as [| x a IH]; cbn; [reflexivity |].
  now rewrite N.compare_refl.
Qed.

Lemma compare_bytes_antisym (a b : list byte) :
  Bson.compare_bytes b a = CompOpp (Bson.compare_bytes a b).
Proof.
  revert b; induction a as [| x a IH]; intros [| y b]; cbn; try reflexivity.
  rewrite (N.compare_antisym (Byte.to_N x) (Byte.to_N y)).
  destruct (Byte.to_N x ?= Byte.to_N y)%N; cbn; auto.
Qed.

Lemma string_compare_refl (s : string) : String.compare s s = Eq.
Proof.
  pose proof (String.compare_antisym s s) as H.
  destruct (String.compare s s); cbn in H; congruence.
Qed.

Lemma bson_compare_refl (v : Bson.Value) : Bson.compare v v = Eq.
Proof.
  destruct v; unfold Bson.compare; rewrite Z.compare_refl; cbn.
  - reflexivity.
  - apply Z.compare_refl.
  - apply Z.compare_refl.
  - apply string_compare_refl.
  - rewrite Nat.compare_refl. apply compare_bytes_refl.
Qed.

Lemma bson_compare_antisym (a b : Bson.Value) :
  Bson.compare b a = CompOpp (Bson.compare a b).
Proof.
  unfold Bson.compare.
  rewrite (Z.compare_antisym (Bson.rank a) (Bson.rank b)).
  destruct (Bson.rank a ?= Bson.rank b) eqn:E; cbn; try reflexivity.
  destruct a, b; cbn in E; try discriminate; cbn;
    try reflexivity; try apply Z.compare_antisym.
  - apply String.compare_antisym.
  - rewrite (Nat.compare_antisym (List.length b0) (List.length b)).
    destruct (Nat.compare (List.length b0) (List.length b)); cbn; auto.
    apply compare_bytes_antisym.
Qed.

Lemma compare_keys_refl (k : list Bson.Value) : Bson.compare_keys k k = Eq.
Proof.
  induction k as [| v k IH]; cbn; [reflexivity |].
  now rewrite bson_compare_refl.
Qed.

(** ** Sorting *)

Lemma compare_by_antisym (spec : Mongo.SortSpec) (a b : Mongo.Document) :
  Mongo.compare_by spec b a = CompOpp (Mongo.compare_by spec a b).
Proof.
  induction spec as [| [k dir] spec IH]; cbn; [reflexivity |].
  rewrite (bson_compare_antisym (IMongoOperation.field k a)
                                (IMongoOperation.field k b)).
  destruct (Bson.compare (IMongoOperation.field k a)
                         (IMongoOperation.field k b));
    cbn; auto; destruct (dir <? 0); reflexivity.
Qed.

Lemma place_permutation (spec : Mongo.SortSpec) (x : Mongo.Document)
    (l : list Mongo.Document) :
  Permutation (x :: l) (Mongo.place spec x l).
Proof.
  induction l as [| y l IH]; cbn; [apply Permutation_refl |].
  destruct (Mongo.compare_by spec x y); try apply Permutation_refl.
  eapply perm_trans; [apply perm_swap |].
  now apply perm_skip.
Qed.

Lemma sort_permutation (spec : Mongo.SortSpec) (l : list Mongo.Document) :
  Permutation l (Mongo.sort spec l).
Proof.
  induction l as [| x l IH]; cbn; [constructor |].
  eapply perm_trans; [apply perm_skip, IH |].
  apply place_permutation.
Qed.

Lemma place_head (spec : Mongo.SortSpec) (x y : Mongo.Document)
    (l : list Mongo.Document) :
  Mongo.before spec y x -> HdRel (Mongo.before spec) y l ->
  HdRel (Mongo.before spec) y (Mongo.place spec x l).
Proof.
  intros Hyx Hhd.
  destruct l as [| z l]; cbn.
  - now constructor.
  - inversion Hhd; subst.
    destruct (Mongo.compare_by spec x z); now constructor.
Qed.

Lemma place_sorted (spec : Mongo.SortSpec) (x : Mongo.Document)
    (l : list Mongo.Document) :
  Sorted (Mongo.before spec) l -> Sorted (Mongo.before spec) (Mongo.place spec x l).
Proof.
  induction 1 as [| y l Hs IH Hhd]; cbn.
  - repeat constructor.
  - destruct (Mongo.compare_by spec x y) eqn:E.
    + constructor; [now constructor |].
      constructor. unfold Mongo.before. now rewrite E.
    + constructor; [now constructor |].
      constructor. unfold Mongo.before. now rewrite E.
    + constructor; [exact IH |].
      apply place_head; [| exact Hhd].
      unfold Mongo.before. rewrite compare_by_antisym, E. discriminate.
Qed.

Lemma sort_sorted (spec : Mongo.SortSpec) (l : list Mongo.Document) :
  Sorted (Mongo.before spec) (Mongo.sort spec l).
Proof.
  induction l as [| x l IH]; cbn; [constructor |].
  now apply place_sorted.
Qed.

(** The stable sort is one of the sorts the driver may perform. *)
Lemma sort_sorts_to (spec : Mongo.SortSpec) (l : list Mongo.Document) :
  Mongo.sorts_to spec l (Mongo.sort spec l).
Proof. split; [apply sort_permutation | apply sort_sorted]. Qed.

(** ** Collections of a database *)

Lemma collection_name (n : string) (db : Mongo.Db) :
  Mongo.collectionName (Mongo.collection n db) = n.
Proof.
  induction db as [| c db IH]; cbn; [reflexivity |].
  destruct (Mongo.collectionName c =? n)%string eqn:E; [| exact IH].
  now apply String.eqb_eq.
Qed.

Lemma collection_update (c : Mongo.Collection) (db : Mongo.Db) :
  Mongo.collection (Mongo.collectionName c) (Mongo.update c db) = c.
Proof.
  induction db as [| c0 db IH]; cbn.
  - now rewrite String.eqb_refl.
  - destruct (Mongo.collectionName c0 =? Mongo.collectionName c)%string eqn:E;
      cbn.
    + now rewrite String.eqb_refl.
    + now rewrite E.
Qed.

Lemma update_names (c : Mongo.Collection) (db : Mongo.Db) :
  In (Mongo.collectionName c) (map Mongo.collectionName (Mongo.update c db)).
Proof.
  induction db as [| c0 db IH]; cbn; [now left |].
  destruct (Mongo.collectionName c0 =? Mongo.collectionName c)%string;
    cbn; auto.
Qed.

Lemma update_same (n : string) (db : Mongo.Db) :
  In n (map Mongo.collectionName db) ->
  Mongo.update (Mongo.collection n db) db = db.
Proof.
  induction db as [| c0 db IH]; cbn; [tauto |].
  intros Hin.
  destruct (Mongo.collectionName c0 =? n)%string eqn:E.
  - cbn. now rewrite String.eqb_refl.
  - cbn. rewrite collection_name, E. f_equal. apply IH.
    destruct Hin as [H | H]; [| exact H].
    apply String.eqb_neq in E. contradiction.
Qed.

Lemma includes_In (n : string) (names : list string) :
  existsb (String.eqb n) names = true <-> In n names.
Proof.
  rewrite existsb_exists. split.
  - intros [x [Hin Heq]]. apply String.eqb_eq in Heq. now subst.
  - intros Hin. exists n. split; [exact Hin | apply String.eqb_refl].
Qed.

(** ** Writes keep the collection's name and indexes *)

Lemma insertOne_shape (d : Mongo.Document) (c : Mongo.Collection) :
  Mongo.collectionName (fst (Mongo.insertOne d c)) = Mongo.collectionName c /\
  Mongo.indexes (fst (Mongo.insertOne d c)) = Mongo.indexes c.
Proof.
  unfold Mongo.insertOne.
  destruct (existsb (Mongo.collides (Mongo.documents c) d) (Mongo.indexes c));
    cbn; auto.
Qed.

Lemma insertAll_shape (batch : list Mongo.Document) (c : Mongo.Collection) :
  Mongo.collectionName (fst (Mongo.insertAll batch c)) = Mongo.collectionName c /\
  Mongo.indexes (fst (Mongo.insertAll batch c)) = Mongo.indexes c.
Proof.
  revert c; induction batch as [| d batch IH]; intros c; cbn; [auto |].
  pose proof (insertOne_shape d c) as [Hn Hi].
  destruct (Mongo.insertOne d c) as [c1 e]; cbn in Hn, Hi.
  specialize (IH c1).
  destruct (Mongo.insertAll batch c1) as [c2 es]; cbn in *.
  destruct IH as [IHn IHi]. split; congruence.
Qed.

Lemma execute_shape (batch : list Mongo.Document) (c : Mongo.Collection) :
  Mongo.collectionName (fst (Mongo.execute batch c)) = Mongo.collectionName c /\
  Mongo.indexes (fst (Mongo.execute batch c)) = Mongo.indexes c.
Proof.
  unfold Mongo.execute.
  destruct batch as [| d batch]; [cbn; auto |].
  pose proof (insertAll_shape (d :: batch) c) as H.
  destruct (Mongo.insertAll (d :: batch) c) as [c' errs]. exact H.
Qed.

(** ** The store stays ready *)

Section Ready.

Import MongoDbOperationStore State.

Lemma ready_update (this : t) (db : Mongo.Db) (c : Mongo.Collection) :
  ready this db ->
  Mongo.collectionName c = operationCollectionName this ->
  Mongo.indexes c = [Mongo.mkIndex INDEX_KEYS true] ->
  ready this (Mongo.update c db).
Proof.
  intros [Hh _] Hn Hi. repeat split; [exact Hh | |].
  - rewrite <- Hn. apply update_names.
  - rewrite <- Hn, collection_update. exact Hi.
Qed.

Lemma initialize_fresh (this : t) (db : Mongo.Db) :
  ~ In (operationCollectionName this) (map Mongo.collectionName db) ->
  ready (fst (initialize this db)) (snd (initialize this db)) /\
  stored (fst (initialize this db)) (snd (initialize this db)) = [].
Proof.
  intros Hnew. unfold initialize, Mongo.collections.
  destruct (existsb (String.eqb (operationCollectionName this))
                    (map Mongo.collectionName db)) eqn:E.
  - apply includes_In in E. contradiction.
  - unfold Mongo.createCollection. cbn [fst snd].
    set (c := Mongo.createIndex INDEX_KEYS true
                (Mongo.mkCollection (operationCollectionName this) [] [])).
    assert (Hc : operationCollectionName this = Mongo.collectionName c)
      by reflexivity.
    unfold ready, stored. cbn [collection operationCollectionName].
    rewrite Hc, collection_update.
    repeat split. apply update_names.
Qed.

Lemma initialize_again (this : t) (db : Mongo.Db) :
  ready this db -> initialize this db = (this, db).
Proof.
  intros [Hh [Hin _]]. unfold initialize, Mongo.collections.
  apply includes_In in Hin. rewrite Hin.
  destruct this as [u n o h]; cbn in *. now subst.
Qed.

Lemma put_ready (operations : list Operation.t) (this : t) (db : Mongo.Db) :
  ready this db -> ready this (fst (put operations this db)).
Proof.
  intros Hr. pose proof Hr as [Hh [_ Hi]].
  unfold put, put_with. rewrite Hh.
  pose proof (execute_shape (map convertToMongoOperation operations)
                (Mongo.collection (operationCollectionName this) db)) as [Hn Hx].
  destruct (Mongo.execute (map convertToMongoOperation operations)
              (Mongo.collection (operationCollectionName this) db)) as [c' r].
  cbn in *. apply ready_update; [exact Hr | |].
  - now rewrite Hn, collection_name.
  - now rewrite Hx.
Qed.

Lemma delete_ready (n : option Z) (this : t) (db : Mongo.Db) :
  ready this db -> ready this (fst (delete n this db)).
Proof.
  intros Hr. pose proof Hr as [Hh [_ Hi]].
  unfold delete. rewrite Hh. cbn [fst].
  destruct n as [n |]; [destruct (Js.truthy_number n) |];
    (apply ready_update; [exact Hr | cbn; apply collection_name | exact Hi]).
Qed.

Lemma step_ready (c : Call) (s : t * Mongo.Db) :
  ready (fst s) (snd s) -> ready (fst (step c s)) (snd (step c s)).
Proof.
  intros Hr. destruct c; cbn.
  - now rewrite (initialize_again _ _ Hr).
  - now apply put_ready.
  - now apply delete_ready.
Qed.

Lemma run_ready (calls : list Call) (s : t * Mongo.Db) :
  ready (fst s) (snd s) -> ready (fst (run calls s)) (snd (run calls s)).
Proof.
  revert s; induction calls as [| c calls IH]; intros s Hr; cbn; [exact Hr |].
  apply IH. now apply step_ready.
Qed.

End Ready.

(** ** Rollback *)

Section Rollback.

Import MongoDbOperationStore State.

Lemma deleteMany_all (c : Mongo.Collection) :
  Mongo.documents (Mongo.deleteMany [] c) = [].
Proof.
  unfold Mongo.deleteMany; cbn.
  induction (Mongo.documents c) as [| d l IH]; cbn; auto.
Qed.

Lemma greater_than_long (d : Mongo.Document) (n : Z) :
  Mongo.matches [("transactionNumber"%string, Mongo.Gt (Bson.LongV (Long.mk n)))] d
  = negb (Long.value (IMongoOperation.transactionNumber d) <=? n).
Proof.
  unfold Mongo.matches, Mongo.holds, Bson.gtb, Bson.compare, Z.leb; cbn.
  destruct (Long.value (IMongoOperation.transactionNumber d) ?= n);
    reflexivity.
Qed.

(** With no argument, [delete] leaves no document. *)
Lemma delete_all (this : t) (db : Mongo.Db) :
  ready this db -> stored this (fst (delete None this db)) = [].
Proof.
  intros [Hh _]. unfold delete, stored. rewrite Hh. cbn [fst].
  set (c := Mongo.deleteMany [] _).
  assert (Hc : operationCollectionName this = Mongo.collectionName c)
    by (symmetry; apply collection_name).
  rewrite Hc, collection_update. apply deleteMany_all.
Qed.

(** With a threshold other than zero that a long can hold, [delete] keeps
    the documents whose transaction number is at most the threshold, in
    their order, and no other. *)
Lemma delete_threshold (n : Z) (this : t) (db : Mongo.Db) :
  ready this db -> n <> 0 -> Long.in_range n ->
  stored this (fst (delete (Some n) this db)) =
  filter (fun d => Long.value (IMongoOperation.transactionNumber d) <=? n)
         (stored this db).
Proof.
  intros [Hh _] Hn Hr. unfold delete, stored. rewrite Hh. cbn [fst].
  unfold Js.truthy_number.
  destruct (n =? 0) eqn:E; [apply Z.eqb_eq in E; contradiction |].
  cbn [negb]. rewrite (fromNumber_in_range n Hr).
  set (c := Mongo.deleteMany _ _).
  assert (Hc : operationCollectionName this = Mongo.collectionName c)
    by (symmetry; apply collection_name).
  rewrite Hc at 1. rewrite collection_update.
  unfold c, Mongo.deleteMany; cbn [Mongo.documents].
  apply filter_ext. intros d.
  rewrite greater_than_long. apply negb_involutive.
Qed.

End Rollback.

Section RollbackClaims.

Import MongoDbOperationStore State.

(** C10: [delete] called with the transaction number 0 does what [delete]
    called with no argument does: zero is falsy, so the call takes the branch
    of the full reset and leaves no document in the collection, whatever the
    transaction numbers of the stored records (zero and below included). *)
Theorem delete_zero_is_full_reset (this : t) (db : Mongo.Db) (h : string) :
  collection this = Some h ->
  delete (Some 0) this db = delete None this db /\
  Mongo.documents (Mongo.collection h (fst (delete (Some 0) this db))) = [].
Proof.
  intros Hh. split; [reflexivity |].
  unfold delete. rewrite Hh. cbn [fst Js.truthy_number Z.eqb negb].
  set (c := Mongo.deleteMany [] _).
  assert (Hc : h = Mongo.collectionName c)
    by (symmetry; apply collection_name).
  rewrite Hc, collection_update. apply deleteMany_all.
Qed.

Lemma delete_zero_is_full_reset_witness :
  let db := Sample.dbWith [Sample.operation "did1" (-1) 0;
                           Sample.operation "did1" 0 0;
                           Sample.operation "did2" 7 3] in
  List.length (stored Sample.store db) = 3%nat /\
  delete (Some 0) Sample.store db = delete None Sample.store db /\
  Mongo.documents
    (Mongo.collection "operations" (fst (delete (Some 0) Sample.store db))) = [].
Proof.
  split; [reflexivity |].
  apply (delete_zero_is_full_reset Sample.store _ "operations"). reflexivity.
Defined.

(** C1, at the input where the code departs from it: the store holds two
    records of one DID, with transaction numbers 0 and 1.  Rollback to 0
    should remove the second and keep the first; the code removes both. *)
Theorem rollback_to_zero_removes_record_zero :
  let kept := Sample.operation "did1" 0 0 in
  let db := Sample.dbWith [kept; Sample.operation "did1" 1 0] in
  In (convertToMongoOperation kept) (stored Sample.store db) /\
  Operation.transactionNumber kept <= 0 /\
  stored Sample.store (fst (delete (Some 0) Sample.store db)) = [].
Proof.
  cbv zeta. split; [| split].
  - left. reflexivity.
  - cbn. lia.
  - reflexivity.
Qed.

End RollbackClaims.

(** ** Put *)

Section PutClaims.

Import MongoDbOperationStore State.

Lemma rethrown_spec (e : Js.Error) :
  rethrown e = false <-> duplicateKeyClass e.
Proof.
  unfold rethrown, duplicateKeyClass, code_differs, Mongo.DUPLICATE_KEY.
  rewrite orb_false_iff, negb_false_iff, String.eqb_eq.
  destruct (Js.code e) as [c |].
  - rewrite negb_false_iff, Z.eqb_eq. split; intros [H1 H2]; split; congruence.
  - split; intros [H1 H2]; discriminate.
Qed.

(** C4: whatever bulk write the storage layer performs and whatever error it
    raises, [put] runs it once and then resolves when the error is of the
    duplicate key class (a bulk write error with code 11000), and rejects
    with that very error when it is of any other kind. *)
Theorem put_classifies_storage_errors
    (execute : list Mongo.Document -> Mongo.Collection ->
               Mongo.Collection * option Js.Error)
    (operations : list Operation.t) (this : t) (db : Mongo.Db)
    (h : string) (c' : Mongo.Collection) (error : Js.Error) :
  collection this = Some h ->
  execute (map convertToMongoOperation operations) (Mongo.collection h db)
    = (c', Some error) ->
  (duplicateKeyClass error ->
   put_with execute operations this db = (Mongo.update c' db, Js.Resolved tt)) /\
  (~ duplicateKeyClass error ->
   put_with execute operations this db
     = (Mongo.update c' db, Js.Rejected error)).
Proof.
  intros Hh Hx. unfold put_with. rewrite Hh, Hx.
  split; intros Hd.
  - apply rethrown_spec in Hd. now rewrite Hd.
  - destruct (rethrown error) eqn:E; [reflexivity |].
    apply rethrown_spec in E. contradiction.
Qed.

Lemma put_classifies_storage_errors_witness :
  put_with Sample.outage [Sample.operation "did1" 1 0] Sample.store Sample.emptyDb
  = (Sample.emptyDb,
     Js.Rejected (Js.mkError "MongoNetworkError" None "connection refused")).
Proof.
  apply (put_classifies_storage_errors Sample.outage [Sample.operation "did1" 1 0]
           Sample.store Sample.emptyDb "operations"
           (Mongo.collection "operations" Sample.emptyDb)
           (Js.mkError "MongoNetworkError" None "connection refused")
           eq_refl eq_refl).
  unfold duplicateKeyClass. cbn. intros [H _]. discriminate.
Defined.

Lemma same_key_same_index_key (o o' : Operation.t) :
  Operation.key o' = Operation.key o ->
  Mongo.key_of (Mongo.mkIndex INDEX_KEYS true) (convertToMongoOperation o) =
  Mongo.key_of (Mongo.mkIndex INDEX_KEYS true) (convertToMongoOperation o').
Proof.
  unfold Operation.key. intros H. injection H as Hd Ht Hi.
  unfold Mongo.key_of, convertToMongoOperation; cbn.
  now rewrite Hd, Ht, Hi.
Qed.

(** A document whose key a stored document has is refused by the index. *)
Lemma duplicate_refused (o o' : Operation.t) (c : Mongo.Collection) :
  Mongo.indexes c = [Mongo.mkIndex INDEX_KEYS true] ->
  In (convertToMongoOperation o') (Mongo.documents c) ->
  Operation.key o' = Operation.key o ->
  Mongo.insertOne (convertToMongoOperation o) c = (c, Some Mongo.DUPLICATE_KEY).
Proof.
  intros Hi Hin Hk. unfold Mongo.insertOne. rewrite Hi.
  cbn [existsb]. unfold Mongo.collides at 1. cbn [Mongo.unique andb].
  replace (existsb _ (Mongo.documents c)) with true; [reflexivity |].
  symmetry. apply existsb_exists. exists (convertToMongoOperation o').
  split; [exact Hin |].
  rewrite (same_key_same_index_key o o' Hk).
  unfold Bson.keys_eqb. now rewrite compare_keys_refl.
Qed.

(** C3: when a record with the key (didUniqueSuffix, transactionNumber,
    operationIndex) of [o] is already stored, [put] of [o] resolves and
    leaves the database as it was. *)
Theorem put_again_changes_nothing (o o' : Operation.t) (this : t)
    (db : Mongo.Db) :
  ready this db ->
  In (convertToMongoOperation o') (stored this db) ->
  Operation.key o' = Operation.key o ->
  put [o] this db = (db, Js.Resolved tt).
Proof.
  intros [Hh [Hin Hi]] Hs Hk. unfold put, put_with. rewrite Hh.
  unfold Mongo.execute. cbn [map Mongo.insertAll].
  rewrite (duplicate_refused o o' _ Hi Hs Hk).
  cbn. now rewrite update_same.
Qed.

Lemma put_again_changes_nothing_witness :
  let o := Sample.operation "did1" 5 2 in
  let db := Sample.dbWith [Sample.operation "did1" 4 0; o] in
  put [o] Sample.store db = (db, Js.Resolved tt).
Proof.
  apply (put_again_changes_nothing _ (Sample.operation "did1" 5 2)).
  - unfold ready. split; [reflexivity | split; [left |]; reflexivity].
  - right. left. reflexivity.
  - reflexivity.
Defined.

End PutClaims.

(** ** Get *)

Section Get.

Import MongoDbOperationStore State.

Variable didUniqueSuffixOf : list byte -> string.

Lemma bson_eqb_str (a b : string) : Bson.eqb (Bson.Str a) (Bson.Str b) = (a =? b)%string.
Proof.
  unfold Bson.eqb, Bson.compare; cbn.
  destruct (a =? b)%string eqn:E.
  - apply String.eqb_eq in E. subst. now rewrite string_compare_refl.
  - destruct (String.compare a b) eqn:C; try reflexivity.
    apply String.compare_eq_iff in C. apply String.eqb_neq in E. contradiction.
Qed.

Lemma get_filter_matches (did : string) (d : Mongo.Document) :
  Mongo.matches (GET_FILTER did) d
  = (IMongoOperation.didUniqueSuffix d =? did)%string.
Proof.
  unfold Mongo.matches, GET_FILTER, Mongo.holds; cbn [forallb fst snd].
  change (IMongoOperation.field "didUniqueSuffix" d)
    with (Bson.Str (IMongoOperation.didUniqueSuffix d)).
  rewrite bson_eqb_str. apply andb_true_r.
Qed.

(** The sort specification of [get] names a property no stored document
    has, so it orders documents by transaction number alone. *)
Lemma get_sort_compares_numbers (a b : Mongo.Document) :
  Mongo.compare_by GET_SORT a b
  = (Long.value (IMongoOperation.transactionNumber a)
     ?= Long.value (IMongoOperation.transactionNumber b)).
Proof.
  unfold GET_SORT, Mongo.compare_by.
  change (IMongoOperation.field "operationIndex" a) with Bson.Null.
  change (IMongoOperation.field "operationIndex" b) with Bson.Null.
  change (IMongoOperation.field "transactionNumber" a)
    with (Bson.LongV (IMongoOperation.transactionNumber a)).
  change (IMongoOperation.field "transactionNumber" b)
    with (Bson.LongV (IMongoOperation.transactionNumber b)).
  unfold Bson.compare; cbn.
  destruct (Long.value (IMongoOperation.transactionNumber a)
            ?= Long.value (IMongoOperation.transactionNumber b)); reflexivity.
Qed.

Lemma sorted_map {A B : Type} (R : A -> A -> Prop) (R' : B -> B -> Prop)
    (f : A -> B) (l : list A) :
  (forall a b, R a b -> R' (f a) (f b)) ->
  Sorted R l -> Sorted R' (map f l).
Proof.
  intros HR. induction 1 as [| a l Hs IH Hhd]; cbn; constructor; auto.
  destruct Hhd; cbn; constructor; auto.
Qed.

(** On a ready store [get] resolves, with the stored records of the DID and
    no other, each once, in ascending order of transaction number. *)
Lemma get_resolves (did : string) (this : t) (db : Mongo.Db) :
  ready this db ->
  exists operations,
    get didUniqueSuffixOf did this db = Js.Resolved operations /\
    Permutation
      (map (convertToOperation didUniqueSuffixOf)
           (filter (fun d => (IMongoOperation.didUniqueSuffix d =? did)%string)
                   (stored this db)))
      operations /\
    Sorted ascendingByNumber operations.
Proof.
  intros [Hh _]. unfold get, stored. rewrite Hh.
  eexists. split; [reflexivity |]. split.
  - apply Permutation_map. unfold Mongo.find.
    rewrite (filter_ext _ _ (get_filter_matches did)).
    apply sort_permutation.
  - apply (sorted_map (Mongo.before GET_SORT)); [| apply sort_sorted].
    intros a b. unfold Mongo.before, ascendingByNumber.
    rewrite get_sort_compares_numbers. cbn. rewrite !integer_promote.
    intros H. apply Z.compare_le_iff. exact H.
Qed.

(** A DID with no stored record yields the empty sequence. *)
Lemma get_unknown_did (did : string) (this : t) (db : Mongo.Db) :
  ready this db ->
  (forall d, In d (stored this db) -> IMongoOperation.didUniqueSuffix d <> did) ->
  get didUniqueSuffixOf did this db = Js.Resolved [].
Proof.
  intros [Hh _] Hnone. unfold get, stored in *. rewrite Hh. unfold Mongo.find.
  replace (filter _ _) with (@nil Mongo.Document); [reflexivity |].
  symmetry.
  induction (Mongo.documents (Mongo.collection (operationCollectionName this) db))
    as [| d l IH]; cbn [filter]; [reflexivity |].
  rewrite get_filter_matches.
  destruct (IMongoOperation.didUniqueSuffix d =? did)%string eqn:E.
  - apply String.eqb_eq in E. exfalso. apply (Hnone d); [now left | exact E].
  - apply IH. intros d' Hd'. apply Hnone. now right.
Qed.

(** What [get] returns is one of the answers the driver may give. *)
Lemma get_is_admissible (did : string) (this : t) (db : Mongo.Db)
    (operations : list Operation.found) :
  get didUniqueSuffixOf did this db = Js.Resolved operations ->
  get_may_return didUniqueSuffixOf did this db operations.
Proof.
  unfold get, get_may_return. destruct (collection this) as [h |]; [| discriminate].
  intros H. injection H as H. exists h. eexists.
  split; [reflexivity |]. split; [apply sort_sorts_to |]. now symmetry.
Qed.

End Get.

Section GetClaims.

Import MongoDbOperationStore State.

Lemma leb_le (a b : Operation.found) : Operation.leb a b = true <-> Operation.le a b.
Proof.
  unfold Operation.leb, Operation.le.
  rewrite orb_true_iff, andb_true_iff, Z.ltb_lt, Z.eqb_eq, Z.leb_le.
  reflexivity.
Qed.

(** C2, at the input where the code departs from it: two records of one DID
    in one transaction, put with the higher operation index first.  [get]
    sorts on the property [operationIndex], which no stored document has (the
    documents call it [opIndex]), so the two come back as they went in,
    operation index 1 before operation index 0: not in ascending order of
    (transactionNumber, operationIndex).  The driver's contract for the sort
    allows this answer. *)
Theorem get_ignores_operation_index :
  let first := Sample.operation "did1" 1 1 in
  let second := Sample.operation "did1" 1 0 in
  let db := Sample.dbWith [first; second] in
  get Sample.didUniqueSuffixOf "did1" Sample.store db
    = Js.Resolved [Operation.asFound first; Operation.asFound second] /\
  ~ Sorted Operation.le [Operation.asFound first; Operation.asFound second] /\
  get_may_return Sample.didUniqueSuffixOf "did1" Sample.store db
    [Operation.asFound first; Operation.asFound second].
Proof.
  cbv zeta.
  assert (H : get Sample.didUniqueSuffixOf "did1" Sample.store
                (Sample.dbWith [Sample.operation "did1" 1 1;
                                Sample.operation "did1" 1 0])
              = Js.Resolved [Operation.asFound (Sample.operation "did1" 1 1);
                             Operation.asFound (Sample.operation "did1" 1 0)])
    by reflexivity.
  split; [exact H |]. split.
  - intros Hs. inversion Hs as [| a l _ Hhd]; subst.
    inversion Hhd as [| b l' Hle]; subst.
    apply leb_le in Hle. discriminate.
  - apply get_is_admissible. exact H.
Qed.

End GetClaims.

(** ** The conversions *)

Section Conversions.

Import MongoDbOperationStore State.

Variable didUniqueSuffixOf : list byte -> string.


End Conversions.

Section ConversionClaims.

Import MongoDbOperationStore State.



End ConversionClaims.

(** ** Transaction numbers are stored exactly *)

Section Numbers.

Import MongoDbOperationStore State.

Variable didUniqueSuffixOf : list byte -> string.

(** Two documents the index does not tell apart have the same key. *)
Lemma index_key_eq (a b : Mongo.Document) :
  Bson.keys_eqb (Mongo.key_of (Mongo.mkIndex INDEX_KEYS true) a)
                (Mongo.key_of (Mongo.mkIndex INDEX_KEYS true) b) = true ->
  docKey a = docKey b.
Proof.
  unfold Bson.keys_eqb, Mongo.key_of, docKey; cbn [Mongo.keys INDEX_KEYS map].
  change (IMongoOperation.field "didUniqueSuffix" a)
    with (Bson.Str (IMongoOperation.didUniqueSuffix a)).
  change (IMongoOperation.field "didUniqueSuffix" b)
    with (Bson.Str (IMongoOperation.didUniqueSuffix b)).
  change (IMongoOperation.field "transactionNumber" a)
    with (Bson.LongV (IMongoOperation.transactionNumber a)).
  change (IMongoOperation.field "transactionNumber" b)
    with (Bson.LongV (IMongoOperation.transactionNumber b)).
  change (IMongoOperation.field "opIndex" a)
    with (Bson.Number (IMongoOperation.opIndex a)).
  change (IMongoOperation.field "opIndex" b)
    with (Bson.Number (IMongoOperation.opIndex b)).
  unfold Bson.compare_keys, Bson.compare; cbn [Bson.rank Bson.numeric Z.compare Pos.compare Pos.compare_cont].
  destruct (String.compare (IMongoOperation.didUniqueSuffix a)
                           (IMongoOperation.didUniqueSuffix b)) eqn:Ed;
    try discriminate.
  destruct (Long.value (IMongoOperation.transactionNumber a)
            ?= Long.value (IMongoOperation.transactionNumber b)) eqn:Et;
    try discriminate.
  destruct (IMongoOperation.opIndex a ?= IMongoOperation.opIndex b) eqn:Ei;
    try discriminate.
  intros _.
  apply String.compare_eq_iff in Ed. apply Z.compare_eq in Et, Ei.
  now rewrite Ed, Et, Ei.
Qed.

Lemma insertOne_cases (d : Mongo.Document) (c : Mongo.Collection) :
  Mongo.indexes c = [Mongo.mkIndex INDEX_KEYS true] ->
  (exists d', In d' (Mongo.documents c) /\ docKey d' = docKey d /\
              Mongo.insertOne d c = (c, Some Mongo.DUPLICATE_KEY)) \/
  Mongo.insertOne d c =
    (Mongo.mkCollection (Mongo.collectionName c) (Mongo.documents c ++ [d])
                        (Mongo.indexes c), None).
Proof.
  intros Hi.
  assert (G : existsb (Mongo.collides (Mongo.documents c) d) (Mongo.indexes c)
              = existsb (fun d' =>
                           Bson.keys_eqb
                             (Mongo.key_of (Mongo.mkIndex INDEX_KEYS true) d)
                             (Mongo.key_of (Mongo.mkIndex INDEX_KEYS true) d'))
                        (Mongo.documents c))
    by (rewrite Hi; cbn [existsb]; apply orb_false_r).
  unfold Mongo.insertOne. rewrite G.
  destruct (existsb _ (Mongo.documents c)) eqn:E; [left | now right].
  apply existsb_exists in E. destruct E as [d' [Hd' Hk]].
  exists d'. split; [exact Hd' |]. split; [| reflexivity].
  symmetry. now apply index_key_eq.
Qed.



End Numbers.

Section NumberClaims.

Import MongoDbOperationStore State.



End NumberClaims.

(** ** The unique index *)

Section IndexClaims.

Import MongoDbOperationStore State.

Lemma initialize_name (this : t) (db : Mongo.Db) :
  operationCollectionName (fst (initialize this db)) = operationCollectionName this.
Proof.
  unfold initialize.
  destruct (existsb _ _); [reflexivity |].
  destruct (Mongo.createCollection _ _); reflexivity.
Qed.

(** C9: the index is created when the store is first initialized against a
    database that has no operation collection yet (until then there is
    none), it is unique on didUniqueSuffix, transactionNumber and opIndex
    (the stored name of the operation index), initializing again does not
    touch it, and in every state the store reaches afterwards by
    initialize, put and delete calls, an insert whose key a stored record
    has is refused with the duplicate key code. *)
Theorem unique_index_created_on_first_use (this : t) (db : Mongo.Db)
    (calls : list Call) (o o' : Operation.t) :
  ~ In (operationCollectionName this) (map Mongo.collectionName db) ->
  let s0 := initialize this db in
  let s := run calls s0 in
  let c := Mongo.collection (operationCollectionName (fst s)) (snd s) in
  Mongo.indexes (Mongo.collection (operationCollectionName this) db) = [] /\
  Mongo.indexes (Mongo.collection (operationCollectionName this) (snd s0))
    = [Mongo.mkIndex ["didUniqueSuffix"; "transactionNumber"; "opIndex"]%string
                     true] /\
  initialize (fst s0) (snd s0) = s0 /\
  Mongo.indexes c = Mongo.indexes
                      (Mongo.collection (operationCollectionName this) (snd s0)) /\
  (In (convertToMongoOperation o') (Mongo.documents c) ->
   Operation.key o' = Operation.key o ->
   Mongo.insertOne (convertToMongoOperation o) c = (c, Some 11000)).
Proof.
  intros Hnew s0 s c.
  destruct (initialize_fresh this db Hnew) as [Hr0 _].
  fold s0 in Hr0.
  pose proof (run_ready calls s0 Hr0) as Hr. fold s in Hr.
  assert (Hi0 : Mongo.indexes
                  (Mongo.collection (operationCollectionName this) (snd s0))
                = [Mongo.mkIndex INDEX_KEYS true]).
  { destruct Hr0 as [_ [_ Hi]]. unfold s0 in Hi at 1.
    now rewrite initialize_name in Hi. }
  assert (Hi : Mongo.indexes c = [Mongo.mkIndex INDEX_KEYS true])
    by apply Hr.
  split; [| split; [| split; [| split]]].
  - clear -Hnew. induction db as [| c0 db IH]; cbn in *; [reflexivity |].
    destruct (Mongo.collectionName c0 =? operationCollectionName this)%string
      eqn:E.
    + apply String.eqb_eq in E. tauto.
    + apply IH. tauto.
  - exact Hi0.
  - rewrite (initialize_again _ _ Hr0). now destruct s0.
  - now rewrite Hi, Hi0.
  - intros Hin Hk. now apply (duplicate_refused o o' c Hi Hin Hk).
Qed.

Lemma unique_index_created_on_first_use_witness :
  let this := constructor "mongodb://localhost:27017" None None in
  let a := Sample.operation "did1" 1 0 in
  let b := Sample.operation "did1" 2 0 in
  let s := run [Put [a; b]; Delete (Some 1); Initialize]
               (initialize this []) in
  let c := Mongo.collection "operations" (snd s) in
  Mongo.documents c = [convertToMongoOperation a] /\
  Mongo.indexes c
    = [Mongo.mkIndex ["didUniqueSuffix"; "transactionNumber"; "opIndex"]%string
                     true] /\
  Mongo.insertOne (convertToMongoOperation a) c = (c, Some 11000).
Proof.
  cbv zeta. split; [reflexivity |]. split; [reflexivity |].
  apply (unique_index_created_on_first_use
           (constructor "mongodb://localhost:27017" None None) []
           [Put [Sample.operation "did1" 1 0; Sample.operation "did1" 2 0];
            Delete (Some 1); Initialize]
           (Sample.operation "did1" 1 0) (Sample.operation "did1" 1 0)).
  - cbn. tauto.
  - left. reflexivity.
  - reflexivity.
Defined.

End IndexClaims.

(** ** The fetch result *)

(** C5 as stated fails: the type has a value that carries content next to
    the code for a missing object, and a value that reports success without
    content. *)
Lemma fetch_result_type_allows_content_without_success :
  ~ (forall r : IFetchResult, hasContent r = true <-> code r = Success).
Proof.
  intros H.
  destruct (H (mkFetchResult NotFound (Some [x00]))) as [H1 _].
  specialize (H1 eq_refl). discriminate.
Qed.

(** C5, amended: a fetch result always has a code, and its content is
    optional whatever the code: for every code the type holds a result with
    content and a result without.  That content goes with success and with
    success only is left to the code that builds the results. *)
Theorem fetch_result_content_is_independent (c : FetchResultCode) :
  (exists r : IFetchResult, code r = c /\ hasContent r = true) /\
  (exists r : IFetchResult, code r = c /\ hasContent r = false).
Proof.
  split.
  - exists (mkFetchResult c (Some [])). split; reflexivity.
  - exists (mkFetchResult c None). split; reflexivity.
Qed.

(** ** The HTTP error surface *)

Section EdgeClaims.

Import Edge.

(** C6: when the transactions query fails with the error
    InvalidTransactionNumberOrTimeHash, the response has a status in the 400
    class, its body has the field [code] with that very string, and it has
    no transactions. *)
Theorem invalid_hash_is_bad_request
    (transactions : Query -> list Transaction + Failure) (q : Query) :
  transactions q = inr invalidHashError ->
  400 <= status (getTransactions transactions q) < 500 /\
  property "code" (body (getTransactions transactions q))
    = Some (JString "InvalidTransactionNumberOrTimeHash") /\
  property "transactions" (body (getTransactions transactions q)) = None.
Proof.
  intros H. unfold getTransactions. rewrite H. cbn. repeat split; lia.
Qed.

(** The test: the transactions query is faked to throw, and the request is
    [GET /transactions?since=6212927891701761&transaction-time-hash=dummyHash]. *)
Lemma invalid_hash_is_bad_request_witness :
  let fakeGetTransactionsMethod := fun _ : Query =>
        @inr (list Transaction) Failure invalidHashError in
  let response := getTransactions fakeGetTransactionsMethod
                    (Some (6212927891701761, "dummyHash"%string)) in
  status response = 400 /\
  (400 <= status response < 500 /\
   property "code" (body response)
     = Some (JString "InvalidTransactionNumberOrTimeHash") /\
   property "transactions" (body response) = None).
Proof.
  cbv zeta. split; [reflexivity |].
  apply (invalid_hash_is_bad_request
           (fun _ : Query => @inr (list Transaction) Failure invalidHashError)
           (Some (6212927891701761, "dummyHash"%string))).
  reflexivity.
Defined.

(** The checkpoint mismatch of the end-to-end scenario: the chain no longer
    associates the caller's hash with its transaction number, the query
    fails with the reorganization error, and the response is the 400 of
    C6. *)
Lemma checkpoint_mismatch_end_to_end (timeHashOf : Z -> option string)
    (chain : list Transaction) (since : Z) (hash : string) :
  timeHashOf since <> Some hash ->
  transactionsSince timeHashOf chain (Some (since, hash)) = inr invalidHashError /\
  status (getTransactions (transactionsSince timeHashOf chain)
                          (Some (since, hash))) = 400.
Proof.
  intros Hm.
  assert (H : transactionsSince timeHashOf chain (Some (since, hash))
              = inr invalidHashError).
  { unfold transactionsSince. destruct (timeHashOf since) as [h |] eqn:E.
    - destruct (h =? hash)%string eqn:Eh; [| reflexivity].
      apply String.eqb_eq in Eh. subst h. contradiction.
    - reflexivity. }
  split; [exact H |]. unfold getTransactions. now rewrite H.
Qed.

End EdgeClaims.

(** ** Scenarios *)

Section Scenarios.

Import MongoDbOperationStore State.

(** The rollback scenario of the spec: transaction numbers 1 to 4 for one
    DID, then a rollback to 2, then a full reset. *)
Example rollback_scenario :
  let db := Sample.dbWith [Sample.operation "did1" 3 0;
                           Sample.operation "did1" 1 0;
                           Sample.operation "did1" 4 0;
                           Sample.operation "did1" 2 0] in
  let db2 := fst (delete (Some 2) Sample.store db) in
  get Sample.didUniqueSuffixOf "did1" Sample.store db2
    = Js.Resolved (map Operation.asFound
                     [Sample.operation "did1" 1 0; Sample.operation "did1" 2 0]) /\
  stored Sample.store (fst (delete None Sample.store db2)) = [].
Proof. split; reflexivity. Qed.

(** Records of several transactions put out of order come back in order
    when no two of them share a transaction. *)
Example ordering_scenario :
  get Sample.didUniqueSuffixOf "did1" Sample.store
      (Sample.dbWith [Sample.operation "did1" 9 2;
                      Sample.operation "did2" 1 0;
                      Sample.operation "did1" 3 1;
                      Sample.operation "did1" 5 0])
  = Js.Resolved (map Operation.asFound
                   [Sample.operation "did1" 3 1;
                    Sample.operation "did1" 5 0;
                    Sample.operation "did1" 9 2]).
Proof. reflexivity. Qed.

(** A batch that mixes a stored record with a new one stores the new one and
    resolves. *)
Example mixed_batch_scenario :
  let a := Sample.operation "did1" 1 0 in
  let b := Sample.operation "did1" 2 0 in
  put [a; b] Sample.store (Sample.dbWith [a])
  = (Sample.dbWith [a; b], Js.Resolved tt).
Proof. reflexivity. Qed.

(** The driver refuses to execute an empty bulk operation, and [put] passes
    the refusal on. *)
Example empty_batch_scenario :
  snd (put [] Sample.store Sample.emptyDb)
  = Js.Rejected (Mongo.MongoError "Invalid Operation, no operations specified").
Proof. reflexivity. Qed.

(** Before [initialize] the store has no collection to work on. *)
Example uninitialized_scenario :
  snd (put [Sample.operation "did1" 1 0]
           (constructor "mongodb://localhost:27017" None None) [])
  = Js.Rejected TypeError.
Proof. reflexivity. Qed.

End Scenarios.

(** * Further properties of the store *)

(** ** Databases *)

Lemma collection_update_other (n : string) (c : Mongo.Collection)
    (db : Mongo.Db) :
  Mongo.collectionName c <> n ->
  Mongo.collection n (Mongo.update c db) = Mongo.collection n db.
Proof.
  intros Hne. induction db as [| c0 db IH]; cbn.
  - destruct (Mongo.collectionName c =? n)%string eqn:E; [| reflexivity].
    apply String.eqb_eq in E. contradiction.
  - destruct (Mongo.collectionName c0 =? Mongo.collectionName c)%string eqn:E0;
      cbn.
    + apply String.eqb_eq in E0.
      destruct (Mongo.collectionName c =? n)%string eqn:E1.
      * apply String.eqb_eq in E1. contradiction.
      * rewrite E0, E1. reflexivity.
    + destruct (Mongo.collectionName c0 =? n)%string; [reflexivity | exact IH].
Qed.

Lemma update_update (c c' : Mongo.Collection) (db : Mongo.Db) :
  Mongo.collectionName c = Mongo.collectionName c' ->
  Mongo.update c' (Mongo.update c db) = Mongo.update c' db.
Proof.
  intros Hn. induction db as [| c0 db IH]; cbn.
  - now rewrite Hn, String.eqb_refl.
  - destruct (Mongo.collectionName c0 =? Mongo.collectionName c)%string eqn:E;
      cbn; rewrite <- Hn.
    + now rewrite String.eqb_refl, E.
    + rewrite E. f_equal. exact IH.
Qed.

Lemma update_append (c c' : Mongo.Collection) (db : Mongo.Db) :
  ~ In (Mongo.collectionName c') (map Mongo.collectionName db) ->
  Mongo.collectionName c = Mongo.collectionName c' ->
  Mongo.update c' (db ++ [c]) = db ++ [c'].
Proof.
  intros Hnew Hn. induction db as [| c0 db IH]; cbn.
  - now rewrite Hn, String.eqb_refl.
  - cbn in Hnew.
    destruct (Mongo.collectionName c0 =? Mongo.collectionName c')%string eqn:E.
    + apply String.eqb_eq in E. tauto.
    + f_equal. apply IH. tauto.
Qed.

Section InitializeFacts.

Import MongoDbOperationStore State.

(** The store once [initialize] has run: the same names, and the handle. *)
Lemma initialize_existing (this : t) (db : Mongo.Db) :
  In (operationCollectionName this) (map Mongo.collectionName db) ->
  initialize this db
  = (mk (serverUrl this) (databaseName this) (operationCollectionName this)
        (Some (operationCollectionName this)), db).
Proof.
  intros Hin. unfold initialize, Mongo.collections.
  apply includes_In in Hin. now rewrite Hin.
Qed.

Lemma initialize_new (this : t) (db : Mongo.Db) :
  ~ In (operationCollectionName this) (map Mongo.collectionName db) ->
  initialize this db
  = (mk (serverUrl this) (databaseName this) (operationCollectionName this)
        (Some (operationCollectionName this)),
     db ++ [Mongo.mkCollection (operationCollectionName this) []
                               [Mongo.mkIndex INDEX_KEYS true]]).
Proof.
  intros Hnew. unfold initialize, Mongo.collections.
  destruct (existsb _ _) eqn:E; [apply includes_In in E; contradiction |].
  unfold Mongo.createCollection. f_equal.
  now apply update_append.
Qed.

Lemma names_dec (n : string) (db : Mongo.Db) :
  In n (map Mongo.collectionName db) \/ ~ In n (map Mongo.collectionName db).
Proof.
  destruct (in_dec string_dec n (map Mongo.collectionName db)); auto.
Qed.

(** X1: whatever the arguments of the constructor, the store starts without a
    collection handle and neither of its two names is empty: a name that is
    given and not the empty string is kept, and a name that is not given, or
    given as the empty string, is replaced by its default (sidetree,
    operations). *)
Theorem constructor_names (url : string) (dn cn : option string) :
  let s := constructor url dn cn in
  collection s = None /\
  serverUrl s = url /\
  (forall n, dn = Some n -> n <> ""%string -> databaseName s = n) /\
  (dn = None \/ dn = Some ""%string -> databaseName s = "sidetree"%string) /\
  (forall n, cn = Some n -> n <> ""%string -> operationCollectionName s = n) /\
  (cn = None \/ cn = Some ""%string ->
   operationCollectionName s = "operations"%string) /\
  databaseName s <> ""%string /\
  operationCollectionName s <> ""%string.
Proof.
  cbv zeta.
  unfold constructor;
    cbn [collection serverUrl databaseName operationCollectionName].
  split; [reflexivity |]. split; [reflexivity |].
  split; [| split; [| split; [| split; [| split]]]].
  - intros n Hn Hne. subst dn. destruct n; [contradiction | reflexivity].
  - intros [H | H]; subst dn; reflexivity.
  - intros n Hn Hne. subst cn. destruct n; [contradiction | reflexivity].
  - intros [H | H]; subst cn; reflexivity.
  - destruct dn as [[| a d] |]; cbn; discriminate.
  - destruct cn as [[| a d] |]; cbn; discriminate.
Qed.

(** X2: [initialize] never alters a collection that exists.  When the
    operation collection is there, the database afterwards is the database
    before; when it is not, the database afterwards is the database before
    followed by the new, empty operation collection with its unique index.
    Either way the store has its handle, and the documents of the operation
    collection are what they were. *)
Theorem initialize_keeps_collections (this : t) (db : Mongo.Db) :
  (In (operationCollectionName this) (map Mongo.collectionName db) ->
   snd (initialize this db) = db) /\
  (~ In (operationCollectionName this) (map Mongo.collectionName db) ->
   snd (initialize this db)
   = db ++ [Mongo.mkCollection (operationCollectionName this) []
              [Mongo.mkIndex INDEX_KEYS true]]) /\
  collection (fst (initialize this db)) = Some (operationCollectionName this) /\
  stored (fst (initialize this db)) (snd (initialize this db))
  = stored this db.
Proof.
  split; [| split].
  - intros Hin. now rewrite (initialize_existing _ _ Hin).
  - intros Hnew. now rewrite (initialize_new _ _ Hnew).
  - destruct (names_dec (operationCollectionName this) db) as [Hin | Hnew].
    + rewrite (initialize_existing _ _ Hin). cbn [fst snd]. split; reflexivity.
    + rewrite (initialize_new _ _ Hnew). cbn [fst snd].
      split; [reflexivity |].
      unfold stored. cbn [operationCollectionName].
      clear -Hnew. induction db as [| c0 db IH]; cbn in *.
      * now rewrite String.eqb_refl.
      * destruct (Mongo.collectionName c0 =? operationCollectionName this)%string
          eqn:E.
        -- apply String.eqb_eq in E. tauto.
        -- apply IH. tauto.
Qed.

(** X3: [initialize] is idempotent on every database: a second call returns
    the store and the database of the first. *)
Theorem initialize_idempotent (this : t) (db : Mongo.Db) :
  initialize (fst (initialize this db)) (snd (initialize this db))
  = initialize this db.
Proof.
  destruct (names_dec (operationCollectionName this) db) as [Hin | Hnew].
  - rewrite (initialize_existing _ _ Hin). cbn [fst snd].
    now rewrite initialize_existing.
  - rewrite (initialize_new _ _ Hnew). cbn [fst snd].
    rewrite initialize_existing; [reflexivity |].
    cbn [operationCollectionName]. rewrite map_app. apply in_or_app.
    right. now left.
Qed.

End InitializeFacts.

Section HandleFacts.

Import MongoDbOperationStore State.

(** X4: when the operation collection already exists, [initialize] takes it
    as it is and creates no index.  On such a collection without an index
    nothing refuses a duplicate: [put] of one operation resolves and appends
    its document, whether or not a document with its key is stored. *)
Theorem existing_collection_gets_no_index (this : t) (db : Mongo.Db)
    (o : Operation.t) :
  In (operationCollectionName this) (map Mongo.collectionName db) ->
  Mongo.indexes (Mongo.collection (operationCollectionName this) db) = [] ->
  let s := initialize this db in
  snd s = db /\
  snd (put [o] (fst s) db) = Js.Resolved tt /\
  stored this (fst (put [o] (fst s) db))
  = stored this db ++ [convertToMongoOperation o].
Proof.
  intros Hin Hi. cbv zeta. rewrite (initialize_existing _ _ Hin).
  cbn [fst snd]. split; [reflexivity |].
  unfold put, put_with, stored. cbn [collection operationCollectionName].
  unfold Mongo.execute. cbn [map Mongo.insertAll]. unfold Mongo.insertOne.
  rewrite Hi. cbn [existsb fst snd]. split; [reflexivity |].
  set (c' := Mongo.mkCollection _ _ _).
  assert (Hc : operationCollectionName this = Mongo.collectionName c')
    by (symmetry; apply collection_name).
  rewrite Hc at 1. rewrite collection_update. reflexivity.
Qed.

Lemma existing_collection_gets_no_index_witness :
  let a := Sample.operation "did1" 1 0 in
  let this := constructor "mongodb://localhost:27017" None None in
  let db := [Mongo.mkCollection "operations" [convertToMongoOperation a] []] in
  let s := initialize this db in
  snd s = db /\
  snd (put [a] (fst s) db) = Js.Resolved tt /\
  stored this (fst (put [a] (fst s) db))
  = [convertToMongoOperation a; convertToMongoOperation a].
Proof.
  cbv zeta.
  apply (existing_collection_gets_no_index
           (constructor "mongodb://localhost:27017" None None)
           [Mongo.mkCollection "operations"
              [convertToMongoOperation (Sample.operation "did1" 1 0)] []]
           (Sample.operation "did1" 1 0)).
  - left. reflexivity.
  - reflexivity.
Defined.

(** X5: until [initialize] is called the store has no collection to work on:
    every [put] and every [delete] rejects with a type error, and no sequence
    of such calls on a newly constructed store changes the store or the
    database. *)
Theorem no_effect_before_initialize (url : string) (dn cn : option string)
    (calls : list Call) (db : Mongo.Db) :
  Forall (fun c => c <> Initialize) calls ->
  run calls (constructor url dn cn, db) = (constructor url dn cn, db) /\
  (forall operations,
     put operations (constructor url dn cn) db = (db, Js.Rejected TypeError)) /\
  (forall n, delete n (constructor url dn cn) db = (db, Js.Rejected TypeError)).
Proof.
  intros Hno. split; [| split; reflexivity].
  induction Hno as [| c calls Hc _ IH]; cbn; [reflexivity |].
  destruct c as [| operations | n]; [contradiction | |]; exact IH.
Qed.

Lemma no_effect_before_initialize_witness :
  let s := constructor "mongodb://localhost:27017" None None in
  run [Put [Sample.operation "did1" 1 0]; Delete None; Delete (Some 3)] (s, [])
  = (s, []).
Proof.
  apply (no_effect_before_initialize "mongodb://localhost:27017" None None
           [Put [Sample.operation "did1" 1 0]; Delete None; Delete (Some 3)] []).
  repeat constructor; discriminate.
Defined.

End HandleFacts.

(** ** Bulk inserts under the unique index *)

Section BulkFacts.

Import MongoDbOperationStore State.

Lemma docKey_collides (d d' : Mongo.Document) :
  docKey d' = docKey d ->
  Bson.keys_eqb (Mongo.key_of (Mongo.mkIndex INDEX_KEYS true) d)
                (Mongo.key_of (Mongo.mkIndex INDEX_KEYS true) d') = true.
Proof.
  unfold docKey. intros H. injection H as Hd Ht Hi.
  assert (Hl : IMongoOperation.transactionNumber d'
               = IMongoOperation.transactionNumber d).
  { destruct (IMongoOperation.transactionNumber d'),
             (IMongoOperation.transactionNumber d); cbn in Ht. now subst. }
  replace (Mongo.key_of (Mongo.mkIndex INDEX_KEYS true) d')
    with (Mongo.key_of (Mongo.mkIndex INDEX_KEYS true) d).
  - unfold Bson.keys_eqb. now rewrite compare_keys_refl.
  - unfold Mongo.key_of, IMongoOperation.field; cbn. now rewrite Hd, Hl, Hi.
Qed.

Lemma insertOne_stored (d : Mongo.Document) (c : Mongo.Collection) :
  Mongo.indexes c = [Mongo.mkIndex INDEX_KEYS true] ->
  In (docKey d) (map docKey (Mongo.documents c)) ->
  Mongo.insertOne d c = (c, Some Mongo.DUPLICATE_KEY).
Proof.
  intros Hi Hin. apply in_map_iff in Hin. destruct Hin as [d' [Hk Hd']].
  unfold Mongo.insertOne. rewrite Hi. cbn [existsb].
  unfold Mongo.collides at 1. cbn [Mongo.unique andb].
  replace (existsb _ (Mongo.documents c)) with true; [reflexivity |].
  symmetry. apply existsb_exists. exists d'. split; [exact Hd' |].
  now apply docKey_collides.
Qed.

Lemma insertOne_fresh (d : Mongo.Document) (c : Mongo.Collection) :
  Mongo.indexes c = [Mongo.mkIndex INDEX_KEYS true] ->
  ~ In (docKey d) (map docKey (Mongo.documents c)) ->
  Mongo.insertOne d c =
    (Mongo.mkCollection (Mongo.collectionName c) (Mongo.documents c ++ [d])
                        (Mongo.indexes c), None).
Proof.
  intros Hi Hnew.
  destruct (insertOne_cases d c Hi) as [[d' [Hd' [Hk _]]] | H]; [| exact H].
  exfalso. apply Hnew. rewrite <- Hk. now apply in_map.
Qed.

Lemma docKey_dec (k : string * Z * Z) (l : list (string * Z * Z)) :
  In k l \/ ~ In k l.
Proof.
  destruct (in_dec (fun a b : string * Z * Z =>
                      ltac:(decide equality;
                            [apply Z.eq_dec | decide equality;
                                              [apply Z.eq_dec | apply string_dec]]))
                   k l); auto.
Qed.

(** A bulk insert only appends, and only documents of the batch. *)
Lemma insertAll_documents (batch : list Mongo.Document) (c : Mongo.Collection) :
  exists added,
    Mongo.documents (fst (Mongo.insertAll batch c)) = Mongo.documents c ++ added /\
    incl added batch.
Proof.
  revert c. induction batch as [| d batch IH]; intros c; cbn.
  - exists []. split; [now rewrite app_nil_r | apply incl_refl].
  - unfold Mongo.insertOne.
    destruct (existsb (Mongo.collides (Mongo.documents c) d) (Mongo.indexes c)).
    + destruct (IH c) as [added [Hd Hincl]].
      destruct (Mongo.insertAll batch c) as [c2 es]. cbn [fst] in *.
      exists added. split; [exact Hd | now apply incl_tl].
    + set (c1 := Mongo.mkCollection _ _ _).
      destruct (IH c1) as [added [Hd Hincl]].
      destruct (Mongo.insertAll batch c1) as [c2 es]. cbn [fst] in *.
      exists (d :: added). split.
      * rewrite Hd. unfold c1; cbn. now rewrite <- app_assoc.
      * intros x [Hx | Hx]; [now left | right; now apply Hincl].
Qed.

(** The only code a refused insert reports is the duplicate key code. *)
Lemma insertAll_codes (batch : list Mongo.Document) (c : Mongo.Collection) :
  Forall (fun e => e = Mongo.DUPLICATE_KEY) (snd (Mongo.insertAll batch c)).
Proof.
  revert c. induction batch as [| d batch IH]; intros c; cbn; [constructor |].
  unfold Mongo.insertOne.
  destruct (existsb (Mongo.collides (Mongo.documents c) d) (Mongo.indexes c)).
  - specialize (IH c). destruct (Mongo.insertAll batch c) as [c2 es].
    cbn [snd] in *. now constructor.
  - set (c1 := Mongo.mkCollection _ _ _). specialize (IH c1).
    destruct (Mongo.insertAll batch c1) as [c2 es]. exact IH.
Qed.

(** After a bulk insert every key of the batch is stored. *)
Lemma insertAll_keys (batch : list Mongo.Document) (c : Mongo.Collection) :
  Mongo.indexes c = [Mongo.mkIndex INDEX_KEYS true] ->
  forall d, In d batch ->
    In (docKey d) (map docKey (Mongo.documents (fst (Mongo.insertAll batch c)))).
Proof.
  revert c. induction batch as [| d0 batch IH]; intros c Hi d Hd; [destruct Hd |].
  cbn [Mongo.insertAll].
  assert (H1 : In (docKey d0)
                  (map docKey (Mongo.documents (fst (Mongo.insertOne d0 c))))).
  { destruct (docKey_dec (docKey d0) (map docKey (Mongo.documents c)))
      as [Hin | Hnew].
    - now rewrite (insertOne_stored d0 c Hi Hin).
    - rewrite (insertOne_fresh d0 c Hi Hnew). cbn.
      rewrite map_app. apply in_or_app. right. now left. }
  pose proof (insertOne_shape d0 c) as [_ Hi1]. rewrite Hi in Hi1.
  destruct (Mongo.insertOne d0 c) as [c1 e]. cbn [fst] in *.
  specialize (IH c1 Hi1).
  destruct (insertAll_documents batch c1) as [added [Hdocs _]].
  destruct (Mongo.insertAll batch c1) as [c2 es]. cbn [fst] in *.
  destruct Hd as [Hd | Hd].
  - subst d0. rewrite Hdocs, map_app. apply in_or_app. now left.
  - now apply IH.
Qed.

Lemma nodup_snoc {A : Type} (x : A) (l : list A) :
  NoDup l -> ~ In x l -> NoDup (l ++ [x]).
Proof.
  induction 1 as [| y l Hy Hnd IH]; cbn; intros Hx.
  - constructor; [tauto | constructor].
  - constructor.
    + intros Hin. apply in_app_or in Hin. cbn in Hin.
      destruct Hin as [Hin | [Hin | []]]; [tauto | subst; tauto].
    + apply IH. tauto.
Qed.

(** A bulk insert keeps the stored keys pairwise distinct. *)
Lemma insertAll_nodup (batch : list Mongo.Document) (c : Mongo.Collection) :
  Mongo.indexes c = [Mongo.mkIndex INDEX_KEYS true] ->
  NoDup (map docKey (Mongo.documents c)) ->
  NoDup (map docKey (Mongo.documents (fst (Mongo.insertAll batch c)))).
Proof.
  revert c. induction batch as [| d batch IH]; intros c Hi Hnd; [exact Hnd |].
  cbn [Mongo.insertAll].
  assert (H1 : NoDup (map docKey (Mongo.documents (fst (Mongo.insertOne d c))))).
  { destruct (docKey_dec (docKey d) (map docKey (Mongo.documents c)))
      as [Hin | Hnew].
    - now rewrite (insertOne_stored d c Hi Hin).
    - rewrite (insertOne_fresh d c Hi Hnew). cbn. rewrite map_app. cbn.
      now apply nodup_snoc. }
  pose proof (insertOne_shape d c) as [_ Hi1]. rewrite Hi in Hi1.
  destruct (Mongo.insertOne d c) as [c1 e]. cbn [fst] in *.
  specialize (IH c1 Hi1 H1).
  destruct (Mongo.insertAll batch c1) as [c2 es]. exact IH.
Qed.

End BulkFacts.

Section PutFacts.

Import MongoDbOperationStore State.

Lemma insertAll_all_stored (batch : list Mongo.Document) (c : Mongo.Collection) :
  Mongo.indexes c = [Mongo.mkIndex INDEX_KEYS true] ->
  (forall d, In d batch -> In (docKey d) (map docKey (Mongo.documents c))) ->
  Mongo.insertAll batch c = (c, map (fun _ => Mongo.DUPLICATE_KEY) batch).
Proof.
  intros Hi. induction batch as [| d batch IH]; intros Hall; [reflexivity |].
  cbn [Mongo.insertAll map].
  rewrite (insertOne_stored d c Hi) by (apply Hall; now left).
  rewrite IH; [reflexivity |]. intros d' Hd'. apply Hall. now right.
Qed.

Lemma execute_collection (batch : list Mongo.Document) (c : Mongo.Collection) :
  fst (Mongo.execute batch c) = fst (Mongo.insertAll batch c).
Proof.
  unfold Mongo.execute. destruct batch as [| d batch]; [reflexivity |].
  now destruct (Mongo.insertAll (d :: batch) c).
Qed.

(** Whatever a bulk write of at least one insert reports, [put] swallows. *)
Lemma execute_swallowed (batch : list Mongo.Document) (c : Mongo.Collection) :
  batch <> [] ->
  match snd (Mongo.execute batch c) with
  | None => True
  | Some e => rethrown e = false
  end.
Proof.
  intros Hne. unfold Mongo.execute.
  destruct batch as [| d batch]; [contradiction |].
  pose proof (insertAll_codes (d :: batch) c) as Hcodes.
  destruct (Mongo.insertAll (d :: batch) c) as [c' errs]. cbn [snd] in *.
  destruct errs as [| e errs]; [exact I |].
  inversion Hcodes; subst. reflexivity.
Qed.

Lemma put_unfold (operations : list Operation.t) (this : t) (db : Mongo.Db) :
  collection this = Some (operationCollectionName this) ->
  put operations this db
  = (Mongo.update
       (fst (Mongo.execute (map convertToMongoOperation operations)
               (Mongo.collection (operationCollectionName this) db))) db,
     match snd (Mongo.execute (map convertToMongoOperation operations)
                  (Mongo.collection (operationCollectionName this) db)) with
     | None => Js.Resolved tt
     | Some error => if rethrown error then Js.Rejected error
                     else Js.Resolved tt
     end).
Proof.
  intros Hh. unfold put, put_with. rewrite Hh.
  now destruct (Mongo.execute _ _).
Qed.

Lemma stored_update (this : t) (c : Mongo.Collection) (db : Mongo.Db) :
  Mongo.collectionName c = operationCollectionName this ->
  stored this (Mongo.update c db) = Mongo.documents c.
Proof.
  intros Hn. unfold stored. now rewrite <- Hn, collection_update.
Qed.

Lemma put_stored (operations : list Operation.t) (this : t) (db : Mongo.Db) :
  collection this = Some (operationCollectionName this) ->
  stored this (fst (put operations this db))
  = Mongo.documents
      (fst (Mongo.insertAll (map convertToMongoOperation operations)
              (Mongo.collection (operationCollectionName this) db))).
Proof.
  intros Hh. rewrite (put_unfold _ _ _ Hh). cbn [fst].
  rewrite stored_update, execute_collection; [reflexivity |].
  rewrite execute_collection.
  pose proof (insertAll_shape (map convertToMongoOperation operations)
                (Mongo.collection (operationCollectionName this) db)) as [Hn _].
  rewrite Hn. apply collection_name.
Qed.

Lemma put_resolves (operations : list Operation.t) (this : t) (db : Mongo.Db) :
  collection this = Some (operationCollectionName this) ->
  operations <> [] ->
  snd (put operations this db) = Js.Resolved tt.
Proof.
  intros Hh Hne. rewrite (put_unfold _ _ _ Hh). cbn [snd].
  assert (Hb : map convertToMongoOperation operations <> [])
    by (destruct operations; [contradiction | discriminate]).
  pose proof (execute_swallowed _
                (Mongo.collection (operationCollectionName this) db) Hb) as H.
  destruct (snd (Mongo.execute _ _)) as [e |]; [now rewrite H | reflexivity].
Qed.

(** X6: [put] only appends.  The documents stored before are all still
    stored afterwards, unchanged and in their order, and every document
    added is the stored form of an operation of the batch. *)
Theorem put_only_appends (operations : list Operation.t) (this : t)
    (db : Mongo.Db) :
  collection this = Some (operationCollectionName this) ->
  exists added,
    stored this (fst (put operations this db)) = stored this db ++ added /\
    incl added (map convertToMongoOperation operations).
Proof.
  intros Hh. rewrite (put_stored _ _ _ Hh). apply insertAll_documents.
Qed.

Lemma put_only_appends_witness :
  let a := Sample.operation "did1" 1 0 in
  let b := Sample.operation "did2" 2 0 in
  exists added,
    stored Sample.store (fst (put [a; b] Sample.store (Sample.dbWith [a])))
    = stored Sample.store (Sample.dbWith [a]) ++ added /\
    incl added (map convertToMongoOperation [a; b]).
Proof.
  apply (put_only_appends
           [Sample.operation "did1" 1 0; Sample.operation "did2" 2 0]
           Sample.store
           (Sample.dbWith [Sample.operation "did1" 1 0])).
  reflexivity.
Defined.

(** X7: on an initialized store, [put] of a batch of at least one operation
    resolves, whatever mix of stored and new records the batch holds, and
    afterwards a document with the key of each operation of the batch is
    stored. *)
Theorem put_stores_every_key (operations : list Operation.t) (this : t)
    (db : Mongo.Db) :
  ready this db ->
  operations <> [] ->
  snd (put operations this db) = Js.Resolved tt /\
  forall o, In o operations ->
    In (docKey (convertToMongoOperation o))
       (map docKey (stored this (fst (put operations this db)))).
Proof.
  intros [Hh [_ Hi]] Hne. split; [now apply put_resolves |].
  intros o Ho. rewrite (put_stored _ _ _ Hh).
  apply insertAll_keys; [exact Hi | now apply in_map].
Qed.

Lemma put_stores_every_key_witness :
  let a := Sample.operation "did1" 1 0 in
  let b := Sample.operation "did2" 2 0 in
  snd (put [a; b; a] Sample.store (Sample.dbWith [b])) = Js.Resolved tt /\
  forall o, In o [a; b; a] ->
    In (docKey (convertToMongoOperation o))
       (map docKey (stored Sample.store
                      (fst (put [a; b; a] Sample.store (Sample.dbWith [b]))))).
Proof.
  apply (put_stores_every_key
           [Sample.operation "did1" 1 0; Sample.operation "did2" 2 0;
            Sample.operation "did1" 1 0]
           Sample.store (Sample.dbWith [Sample.operation "did2" 2 0])).
  - unfold ready. split; [reflexivity | split; [left |]; reflexivity].
  - discriminate.
Defined.

(** X8: [put] is idempotent on whole batches: on an initialized store, the
    same non-empty batch put a second time resolves and leaves the database
    exactly as the first [put] left it. *)
Theorem put_twice (operations : list Operation.t) (this : t) (db : Mongo.Db) :
  ready this db ->
  operations <> [] ->
  put operations this (fst (put operations this db))
  = (fst (put operations this db), Js.Resolved tt).
Proof.
  intros Hr Hne. pose proof Hr as [Hh [_ Hi]].
  pose proof (put_ready operations this db Hr) as Hr'.
  pose proof Hr' as [_ [Hin' Hi']].
  assert (Hall : forall d, In d (map convertToMongoOperation operations) ->
            In (docKey d)
               (map docKey (stored this (fst (put operations this db))))).
  { intros d Hd. rewrite (put_stored _ _ _ Hh).
    now apply insertAll_keys. }
  rewrite (put_unfold operations this (fst (put operations this db)) Hh).
  unfold Mongo.execute.
  destruct (map convertToMongoOperation operations) as [| d batch] eqn:Eb.
  { destruct operations; [contradiction | discriminate]. }
  rewrite (insertAll_all_stored (d :: batch) _ Hi' Hall).
  cbn. now rewrite update_same.
Qed.

Lemma put_twice_witness :
  let a := Sample.operation "did1" 1 1 in
  let b := Sample.operation "did1" 1 0 in
  put [a; b] Sample.store (fst (put [a; b] Sample.store Sample.emptyDb))
  = (fst (put [a; b] Sample.store Sample.emptyDb), Js.Resolved tt).
Proof.
  apply (put_twice [Sample.operation "did1" 1 1; Sample.operation "did1" 1 0]
                   Sample.store Sample.emptyDb).
  - unfold ready. split; [reflexivity | split; [left |]; reflexivity].
  - discriminate.
Defined.

End PutFacts.

Section EmptyBatch.

Import MongoDbOperationStore State.

(** X9: [put] of an empty list is an error.  The driver refuses to execute a
    bulk operation without inserts, the refusal is not of the duplicate key
    class, and [put] rejects with it; the database is left as it was. *)
Theorem put_empty_rejects (this : t) (db : Mongo.Db) :
  collection this = Some (operationCollectionName this) ->
  In (operationCollectionName this) (map Mongo.collectionName db) ->
  exists error,
    put [] this db = (db, Js.Rejected error) /\
    Js.name error = "MongoError"%string /\
    ~ duplicateKeyClass error.
Proof.
  intros Hh Hin. eexists. rewrite (put_unfold [] this db Hh). cbn.
  rewrite update_same by exact Hin.
  split; [reflexivity |]. split; [reflexivity |].
  unfold duplicateKeyClass. cbn. intros [H _]. discriminate.
Qed.

Lemma put_empty_rejects_witness :
  exists error,
    put [] Sample.store (Sample.dbWith [Sample.operation "did1" 1 0])
    = (Sample.dbWith [Sample.operation "did1" 1 0], Js.Rejected error) /\
    Js.name error = "MongoError"%string /\
    ~ duplicateKeyClass error.
Proof.
  apply (put_empty_rejects Sample.store
           (Sample.dbWith [Sample.operation "did1" 1 0])).
  - reflexivity.
  - left. reflexivity.
Defined.

End EmptyBatch.

(** ** More on rollback *)

Section DeleteFacts.

Import MongoDbOperationStore State.

Lemma filter_idem {A : Type} (p : A -> bool) (l : list A) :
  filter p (filter p l) = filter p l.
Proof.
  induction l as [| x l IH]; cbn; [reflexivity |].
  destruct (p x) eqn:E; cbn; [rewrite E; now f_equal | exact IH].
Qed.

Lemma deleteMany_idem (q : Mongo.Filter) (c : Mongo.Collection) :
  Mongo.deleteMany q (Mongo.deleteMany q c) = Mongo.deleteMany q c.
Proof.
  unfold Mongo.deleteMany; cbn. now rewrite filter_idem.
Qed.

Lemma deleteMany_name (q : Mongo.Filter) (c : Mongo.Collection) :
  Mongo.collectionName (Mongo.deleteMany q c) = Mongo.collectionName c.
Proof. reflexivity. Qed.

(** Deleting twice through a handle is deleting once. *)
Lemma delete_through_handle_twice (q : Mongo.Filter) (h : string)
    (db : Mongo.Db) :
  let c1 := Mongo.deleteMany q (Mongo.collection h db) in
  Mongo.update (Mongo.deleteMany q (Mongo.collection h (Mongo.update c1 db)))
               (Mongo.update c1 db)
  = Mongo.update c1 db.
Proof.
  cbv zeta.
  set (c1 := Mongo.deleteMany q (Mongo.collection h db)).
  assert (Hn : Mongo.collectionName c1 = h)
    by (unfold c1; rewrite deleteMany_name; apply collection_name).
  rewrite <- Hn at 1. rewrite collection_update.
  unfold c1 at 1. rewrite deleteMany_idem. fold c1.
  now apply update_update.
Qed.

(** X10: [delete] is idempotent, for every argument and on every store and
    database: a second call with the same argument returns what the first
    returned and leaves the database as the first left it. *)
Theorem delete_idempotent (n : option Z) (this : t) (db : Mongo.Db) :
  delete n this (fst (delete n this db)) = delete n this db.
Proof.
  unfold delete. destruct (collection this) as [h |]; [| reflexivity].
  cbn [fst]. f_equal.
  destruct n as [n |]; [destruct (Js.truthy_number n) |];
    apply delete_through_handle_twice.
Qed.

Lemma fromNumber_low (v : Z) :
  v <= - 2 ^ 63 -> Long.fromNumber v = Long.MIN_VALUE.
Proof.
  intros Hv. unfold Long.fromNumber, Long.TWO_PWR_63.
  destruct (v <=? - 2 ^ 63) eqn:E; [reflexivity |].
  apply Z.leb_gt in E. lia.
Qed.

Lemma fromNumber_top (v : Z) :
  2 ^ 63 - 1 <= v -> Long.fromNumber v = Long.MAX_VALUE.
Proof.
  intros Hv. unfold Long.fromNumber, Long.TWO_PWR_63.
  destruct (v <=? - 2 ^ 63) eqn:E1; [apply Z.leb_le in E1; lia |].
  destruct (v + 1 >=? 2 ^ 63) eqn:E2; [reflexivity |].
  rewrite Z.geb_leb in E2. apply Z.leb_gt in E2. lia.
Qed.

(** X11: the whole of rollback.  For every threshold other than zero,
    [delete] resolves and keeps exactly the documents whose transaction
    number is at most the threshold brought into the range of a long
    ([Long.fromNumber]), in their order.  A threshold within the range is
    taken as it is; one at or above 2^63 - 1 stands for 2^63 - 1, the upper
    end of the range; one at or below -2^63 stands for -2^63, the lower
    end. *)
Theorem delete_keeps_up_to_threshold (n : Z) (this : t) (db : Mongo.Db) :
  collection this = Some (operationCollectionName this) ->
  n <> 0 ->
  snd (delete (Some n) this db) = Js.Resolved tt /\
  stored this (fst (delete (Some n) this db))
  = filter (fun d => Long.value (IMongoOperation.transactionNumber d)
                     <=? Long.value (Long.fromNumber n))
           (stored this db) /\
  (Long.in_range n -> Long.value (Long.fromNumber n) = n) /\
  (2 ^ 63 - 1 <= n -> Long.value (Long.fromNumber n) = 2 ^ 63 - 1) /\
  (n <= - 2 ^ 63 -> Long.value (Long.fromNumber n) = - 2 ^ 63).
Proof.
  intros Hh Hn. unfold delete. rewrite Hh. cbn [fst snd].
  unfold Js.truthy_number.
  destruct (n =? 0) eqn:E; [apply Z.eqb_eq in E; contradiction |].
  cbn [negb]. split; [reflexivity |]. split; [| split; [| split]].
  - rewrite stored_update by (rewrite deleteMany_name; apply collection_name).
    unfold Mongo.deleteMany, stored; cbn [Mongo.documents].
    apply filter_ext. intros d.
    destruct (Long.fromNumber n) as [v]. rewrite greater_than_long.
    apply negb_involutive.
  - intros Hr. now rewrite (fromNumber_in_range n Hr).
  - intros Hr. now rewrite (fromNumber_top n Hr).
  - intros Hr. now rewrite (fromNumber_low n Hr).
Qed.

Lemma delete_keeps_up_to_threshold_witness :
  let db := Sample.dbWith [Sample.operation "did1" 3 0;
                           Sample.operation "did1" (-2) 0;
                           Sample.operation "did2" (-1) 1] in
  snd (delete (Some (-1)) Sample.store db) = Js.Resolved tt /\
  stored Sample.store (fst (delete (Some (-1)) Sample.store db))
  = filter (fun d => Long.value (IMongoOperation.transactionNumber d)
                     <=? Long.value (Long.fromNumber (-1)))
           (stored Sample.store db) /\
  (Long.in_range (-1) -> Long.value (Long.fromNumber (-1)) = -1) /\
  (2 ^ 63 - 1 <= -1 -> Long.value (Long.fromNumber (-1)) = 2 ^ 63 - 1) /\
  (-1 <= - 2 ^ 63 -> Long.value (Long.fromNumber (-1)) = - 2 ^ 63).
Proof.
  apply (delete_keeps_up_to_threshold (-1) Sample.store).
  - reflexivity.
  - discriminate.
Defined.

End DeleteFacts.

(** ** What the store leaves alone, and what it keeps *)

Section Invariants.

Import MongoDbOperationStore State.

Lemma collection_app_other (n : string) (c : Mongo.Collection) (db : Mongo.Db) :
  Mongo.collectionName c <> n ->
  Mongo.collection n (db ++ [c])
  = Mongo.collection n db.
Proof.
  intros Hne. induction db as [| c0 db IH]; cbn.
  - destruct (Mongo.collectionName c =? n)%string eqn:E; [| reflexivity].
    apply String.eqb_eq in E. contradiction.
  - destruct (Mongo.collectionName c0 =? n)%string; [reflexivity | exact IH].
Qed.

Lemma step_other (c : Call) (s : t * Mongo.Db) (other : string) :
  handleOk (fst s) ->
  other <> operationCollectionName (fst s) ->
  handleOk (fst (step c s)) /\
  operationCollectionName (fst (step c s)) = operationCollectionName (fst s) /\
  Mongo.collection other (snd (step c s)) = Mongo.collection other (snd s).
Proof.
  destruct s as [this db]. cbn [fst snd]. intros Hok Hne.
  destruct c as [| operations | n]; cbn [step fst snd].
  - destruct (names_dec (operationCollectionName this) db) as [Hin | Hnew].
    + rewrite (initialize_existing _ _ Hin). cbn. repeat split. now right.
    + rewrite (initialize_new _ _ Hnew). cbn [fst snd operationCollectionName].
      split; [now right |]. split; [reflexivity |].
      apply collection_app_other. cbn. congruence.
  - split; [exact Hok |]. split; [reflexivity |].
    destruct Hok as [Hnone | Hh].
    + unfold put, put_with. now rewrite Hnone.
    + rewrite (put_unfold _ _ _ Hh). cbn [fst].
      apply collection_update_other.
      pose proof (execute_shape (map convertToMongoOperation operations)
                    (Mongo.collection (operationCollectionName this) db))
        as [Hn _].
      rewrite Hn, collection_name. congruence.
  - split; [exact Hok |]. split; [reflexivity |].
    unfold delete. destruct Hok as [Hnone | Hh].
    + now rewrite Hnone.
    + rewrite Hh. cbn [fst].
      apply collection_update_other.
      destruct n as [n |]; [destruct (Js.truthy_number n) |];
        rewrite deleteMany_name, collection_name; congruence.
Qed.

(** X12: the store works on its own collection only.  Whatever calls are
    made on it, in whatever order, every other collection of the database
    is afterwards as it was. *)
Theorem other_collections_untouched (calls : list Call) (this : t)
    (db : Mongo.Db) (other : string) :
  collection this = None \/
  collection this = Some (operationCollectionName this) ->
  other <> operationCollectionName this ->
  Mongo.collection other (snd (run calls (this, db))) = Mongo.collection other db.
Proof.
  intros Hok Hne.
  change db with (snd (this, db)) at 2.
  change this with (fst (this, db)) in Hok, Hne.
  generalize dependent (this, db). clear this db.
  induction calls as [| c calls IH]; intros s Hok Hne; [reflexivity |].
  cbn [run fold_left].
  destruct (step_other c s other Hok Hne) as [Hok' [Hname Hsame]].
  rewrite <- Hsame. apply IH; [exact Hok' | congruence].
Qed.

Lemma other_collections_untouched_witness :
  let this := constructor "mongodb://localhost:27017" None None in
  let logs := Mongo.mkCollection "logs" [] [Mongo.mkIndex ["at"%string] false] in
  Mongo.collection "logs"
    (snd (run [Initialize; Put [Sample.operation "did1" 1 0]; Delete None]
              (this, [logs])))
  = Mongo.collection "logs" [logs].
Proof.
  apply (other_collections_untouched
           [Initialize; Put [Sample.operation "did1" 1 0]; Delete None]
           (constructor "mongodb://localhost:27017" None None)).
  - left. reflexivity.
  - discriminate.
Defined.

End Invariants.

Section Reachable.

Import MongoDbOperationStore State.

Lemma delete_filter (n : option Z) (this : t) (db : Mongo.Db) :
  collection this = Some (operationCollectionName this) ->
  exists p, stored this (fst (delete n this db)) = filter p (stored this db).
Proof.
  intros Hh. unfold delete. rewrite Hh. cbn [fst].
  destruct n as [n |]; [destruct (Js.truthy_number n) |];
    eexists;
    (rewrite stored_update by (rewrite deleteMany_name; apply collection_name));
    reflexivity.
Qed.

(** Dropping documents keeps the keys of the remaining ones distinct. *)
Lemma filter_keeps_keys_distinct (keep : Mongo.Document -> bool)
    (docs : list Mongo.Document) :
  NoDup (map docKey docs) -> NoDup (map docKey (filter keep docs)).
Proof.
  induction docs as [| d docs IH]; cbn; [auto |].
  intros Hnd. inversion Hnd as [| k ks Hd Hrest]; subst.
  destruct (keep d); cbn; [| now apply IH].
  constructor; [| now apply IH].
  intros Hin. apply Hd. apply in_map_iff in Hin.
  destruct Hin as [d' [Hk Hf]]. apply filter_In in Hf.
  rewrite <- Hk. apply in_map. tauto.
Qed.

(** A property of the stored documents that [put] and [delete] keep on an
    initialized store holds after every sequence of calls. *)
Lemma run_invariant (P : list Mongo.Document -> Prop) :
  (forall this db operations, ready this db -> P (stored this db) ->
     P (stored this (fst (put operations this db)))) ->
  (forall this db n, ready this db -> P (stored this db) ->
     P (stored this (fst (delete n this db)))) ->
  forall calls s, ready (fst s) (snd s) -> P (stored (fst s) (snd s)) ->
    P (stored (fst (run calls s)) (snd (run calls s))).
Proof.
  intros Hput Hdel calls.
  induction calls as [| c calls IH]; intros s Hr HP; [exact HP |].
  cbn [run fold_left]. apply IH; [now apply step_ready |].
  destruct c as [| operations | n]; cbn [step fst snd].
  - now rewrite (initialize_again _ _ Hr).
  - now apply Hput.
  - now apply Hdel.
Qed.

(** X13: once the store has created its collection, no two stored documents
    ever share the key (didUniqueSuffix, transactionNumber, opIndex),
    whatever is put, duplicates within one batch included, and whatever is
    rolled back. *)
Theorem stored_keys_stay_distinct (calls : list Call) (this : t)
    (db : Mongo.Db) :
  ~ In (operationCollectionName this) (map Mongo.collectionName db) ->
  let s := run calls (initialize this db) in
  NoDup (map docKey (stored (fst s) (snd s))).
Proof.
  intros Hnew. cbv zeta.
  destruct (initialize_fresh this db Hnew) as [Hr Hs].
  apply (run_invariant (fun docs => NoDup (map docKey docs))).
  - intros this' db' operations [Hh [_ Hi]] Hnd.
    rewrite (put_stored _ _ _ Hh). now apply insertAll_nodup.
  - intros this' db' n [Hh _] Hnd.
    destruct (delete_filter n this' db' Hh) as [p Hp]. rewrite Hp.
    now apply filter_keeps_keys_distinct.
  - exact Hr.
  - rewrite Hs. constructor.
Qed.

Lemma stored_keys_stay_distinct_witness :
  let a := Sample.operation "did1" 1 0 in
  let b := Sample.operation "did1" 2 0 in
  let s := run [Put [a; a; b]; Delete (Some 1); Put [b; a; b]]
               (initialize (constructor "mongodb://localhost:27017" None None)
                           []) in
  List.length (stored (fst s) (snd s)) = 2%nat /\
  NoDup (map docKey (stored (fst s) (snd s))).
Proof.
  cbv zeta. split; [reflexivity |].
  apply (stored_keys_stay_distinct
           [Put [Sample.operation "did1" 1 0; Sample.operation "did1" 1 0;
                 Sample.operation "did1" 2 0];
            Delete (Some 1);
            Put [Sample.operation "did1" 2 0; Sample.operation "did1" 1 0;
                 Sample.operation "did1" 2 0]]
           (constructor "mongodb://localhost:27017" None None) []).
  cbn. tauto.
Defined.

(** X14: once the store has created its collection, every stored
    transaction number lies within the signed 64-bit range, whatever
    transaction numbers the operations put carry. *)
Theorem stored_numbers_stay_in_range (calls : list Call) (this : t)
    (db : Mongo.Db) :
  ~ In (operationCollectionName this) (map Mongo.collectionName db) ->
  let s := run calls (initialize this db) in
  Forall (fun d => Long.in_range
                     (Long.value (IMongoOperation.transactionNumber d)))
         (stored (fst s) (snd s)).
Proof.
  intros Hnew. cbv zeta.
  destruct (initialize_fresh this db Hnew) as [Hr Hs].
  apply (run_invariant
           (Forall (fun d => Long.in_range
                               (Long.value (IMongoOperation.transactionNumber d))))).
  - intros this' db' operations [Hh _] Hall.
    rewrite (put_stored _ _ _ Hh).
    destruct (insertAll_documents (map convertToMongoOperation operations)
                (Mongo.collection (operationCollectionName this') db'))
      as [added [Hd Hincl]].
    rewrite Hd. apply Forall_app. split; [exact Hall |].
    apply Forall_forall. intros d Hin. apply Hincl in Hin.
    apply in_map_iff in Hin. destruct Hin as [o [Ho _]]. subst d.
    apply fromNumber_is_long.
  - intros this' db' n [Hh _] Hall.
    destruct (delete_filter n this' db' Hh) as [p Hp]. rewrite Hp.
    apply Forall_forall. intros d Hin. apply filter_In in Hin.
    rewrite Forall_forall in Hall. now apply Hall.
  - exact Hr.
  - rewrite Hs. constructor.
Qed.

Lemma stored_numbers_stay_in_range_witness :
  let s := run [Put [Sample.operation "did1" (2 ^ 70) 0;
                     Sample.operation "did1" (- 2 ^ 70) 0]]
               (initialize (constructor "mongodb://localhost:27017" None None)
                           []) in
  map (fun d => Long.value (IMongoOperation.transactionNumber d))
      (stored (fst s) (snd s)) = [2 ^ 63 - 1; - 2 ^ 63] /\
  Forall (fun d => Long.in_range
                     (Long.value (IMongoOperation.transactionNumber d)))
         (stored (fst s) (snd s)).
Proof.
  cbv zeta. split; [reflexivity |].
  apply (stored_numbers_stay_in_range
           [Put [Sample.operation "did1" (2 ^ 70) 0;
                 Sample.operation "did1" (- 2 ^ 70) 0]]
           (constructor "mongodb://localhost:27017" None None) []).
  cbn. tauto.
Defined.

End Reachable.

(** ** More on the conversions and on get *)

Section RoundTrips.

Import MongoDbOperationStore State.

Variable didUniqueSuffixOf : list byte -> string.

Lemma small_in_range (v : Z) : Z.abs v <= 2 ^ 53 -> Long.in_range v.
Proof. unfold Long.in_range, Long.TWO_PWR_63. lia. Qed.

Lemma forth_and_back (o : Operation.t) :
  Operation.wellFormed didUniqueSuffixOf o ->
  Z.abs (Operation.transactionNumber o) <= 2 ^ 53 ->
  convertToOperation didUniqueSuffixOf (convertToMongoOperation o)
  = Operation.asFound o.
Proof.
  unfold Operation.wellFormed, convertToOperation, convertToMongoOperation,
    Operation.createAnchoredOperation, Operation.asFound.
  intros Hwf Hn. cbn.
  rewrite (fromNumber_in_range _ (small_in_range _ Hn)).
  rewrite promote_number by exact Hn. cbn. now rewrite <- Hwf.
Qed.

Lemma key_of_converted (o : Operation.t) :
  Long.in_range (Operation.transactionNumber o) ->
  docKey (convertToMongoOperation o) = Operation.key o.
Proof.
  intros Hr. unfold docKey, Operation.key, convertToMongoOperation; cbn.
  now rewrite (fromNumber_in_range _ Hr).
Qed.

(** X15: the conversions are inverse in the other direction too, where the
    driver hands back numbers: for a stored document whose DID suffix is the
    one its operation bytes encode and whose transaction number is within
    53 bits, the operation [convertToOperation] makes of it is a declared
    operation (its transaction number is a number), and
    [convertToMongoOperation] makes the document of it again. *)
Theorem convert_back_and_forth (m : IMongoOperation.t) :
  didUniqueSuffixOf (IMongoOperation.operationBufferBsonBinary m)
  = IMongoOperation.didUniqueSuffix m ->
  Z.abs (Long.value (IMongoOperation.transactionNumber m)) <= 2 ^ 53 ->
  exists o,
    Operation.asDeclared (convertToOperation didUniqueSuffixOf m) = Some o /\
    convertToMongoOperation o = m.
Proof.
  intros Hd Hn. destruct m as [did buf idx [v] time hash]. cbn in *.
  unfold convertToOperation, Operation.createAnchoredOperation,
    Operation.asDeclared; cbn.
  rewrite (promote_number (Long.mk v)) by exact Hn. cbn.
  eexists. split; [reflexivity |].
  unfold convertToMongoOperation; cbn.
  now rewrite Hd, (fromNumber_in_range v (small_in_range v Hn)).
Qed.

Lemma insertAll_all_fresh (batch : list Mongo.Document) (c : Mongo.Collection) :
  Mongo.indexes c = [Mongo.mkIndex INDEX_KEYS true] ->
  NoDup (map docKey batch) ->
  (forall d, In d batch -> ~ In (docKey d) (map docKey (Mongo.documents c))) ->
  Mongo.documents (fst (Mongo.insertAll batch c)) = Mongo.documents c ++ batch.
Proof.
  revert c. induction batch as [| d batch IH]; intros c Hi Hnd Hnew; cbn.
  - now rewrite app_nil_r.
  - rewrite (insertOne_fresh d c Hi) by (apply Hnew; now left).
    set (c1 := Mongo.mkCollection _ _ _).
    inversion Hnd as [| k ks Hk Hks]; subst.
    assert (H1 : Mongo.documents (fst (Mongo.insertAll batch c1))
                 = Mongo.documents c1 ++ batch).
    { apply IH; [unfold c1; cbn; exact Hi | exact Hks |].
      intros d' Hd' Hin. unfold c1 in Hin; cbn in Hin.
      rewrite map_app in Hin. apply in_app_or in Hin.
      destruct Hin as [Hin | [Hin | []]].
      - apply (Hnew d'); [now right | exact Hin].
      - apply Hk. rewrite Hin. now apply in_map. }
    destruct (Mongo.insertAll batch c1) as [c2 es]. cbn [fst] in *.
    rewrite H1. unfold c1; cbn. now rewrite <- app_assoc.
Qed.

Lemma converted_back_filtered (did : string) (operations : list Operation.t) :
  Forall (Operation.wellFormed didUniqueSuffixOf) operations ->
  Forall (fun o => Z.abs (Operation.transactionNumber o) <= 2 ^ 53)
         operations ->
  map (convertToOperation didUniqueSuffixOf)
      (filter (fun d => (IMongoOperation.didUniqueSuffix d =? did)%string)
              (map convertToMongoOperation operations))
  = map Operation.asFound
        (filter (fun o => (Operation.didUniqueSuffix o =? did)%string)
                operations).
Proof.
  induction operations as [| o operations IH]; intros Hwf Hr; [reflexivity |].
  inversion Hwf; inversion Hr; subst. cbn [map filter].
  change (IMongoOperation.didUniqueSuffix (convertToMongoOperation o))
    with (Operation.didUniqueSuffix o).
  destruct (Operation.didUniqueSuffix o =? did)%string; cbn [map].
  - rewrite forth_and_back by assumption. f_equal. now apply IH.
  - now apply IH.
Qed.

(** X16: what is put is what [get] gives back, where the driver hands back
    numbers.  On an initialized store that holds nothing yet, after [put] of
    operations with pairwise distinct keys (each as the class builds it,
    with a transaction number within 53 bits), [get] of a DID resolves with
    exactly the operations of the batch that belong to the DID, each once
    and with every field as it was put. *)
Theorem put_then_get (did : string) (operations : list Operation.t) (this : t)
    (db : Mongo.Db) :
  ready this db ->
  stored this db = [] ->
  Forall (Operation.wellFormed didUniqueSuffixOf) operations ->
  Forall (fun o => Z.abs (Operation.transactionNumber o) <= 2 ^ 53)
         operations ->
  NoDup (map Operation.key operations) ->
  exists result,
    get didUniqueSuffixOf did this (fst (put operations this db))
    = Js.Resolved result /\
    Permutation
      (map Operation.asFound
           (filter (fun o => (Operation.didUniqueSuffix o =? did)%string)
                   operations))
      result.
Proof.
  intros Hr Hempty Hwf Hrange Hnd. pose proof Hr as [Hh [_ Hi]].
  destruct (get_resolves didUniqueSuffixOf did this
              (fst (put operations this db)) (put_ready _ _ _ Hr))
    as [result [Hget [Hperm _]]].
  exists result. split; [exact Hget |].
  rewrite (put_stored _ _ _ Hh) in Hperm.
  rewrite insertAll_all_fresh in Hperm.
  - unfold stored in Hempty. rewrite Hempty in Hperm. cbn [app] in Hperm.
    now rewrite converted_back_filtered in Hperm.
  - exact Hi.
  - rewrite map_map.
    rewrite (map_ext_in _ Operation.key); [exact Hnd |].
    intros o Ho. apply key_of_converted. apply small_in_range.
    rewrite Forall_forall in Hrange. now apply Hrange.
  - unfold stored in Hempty. rewrite Hempty. intros d _ [].
Qed.

End RoundTrips.

Section RoundTripWitnesses.

Import MongoDbOperationStore State.

Lemma convert_back_and_forth_witness :
  let m := convertToMongoOperation (Sample.operation "did1" (2 ^ 53) 4) in
  exists o,
    Operation.asDeclared (convertToOperation Sample.didUniqueSuffixOf m)
    = Some o /\
    convertToMongoOperation o = m.
Proof.
  apply (convert_back_and_forth Sample.didUniqueSuffixOf).
  - reflexivity.
  - cbn. lia.
Defined.

Lemma put_then_get_witness :
  let a := Sample.operation "did1" 7 0 in
  let b := Sample.operation "did2" 7 1 in
  let c := Sample.operation "did1" 3 2 in
  exists result,
    get Sample.didUniqueSuffixOf "did1" Sample.store
        (fst (put [a; b; c] Sample.store Sample.emptyDb))
    = Js.Resolved result /\
    Permutation [Operation.asFound a; Operation.asFound c] result.
Proof.
  apply (put_then_get Sample.didUniqueSuffixOf "did1"
           [Sample.operation "did1" 7 0; Sample.operation "did2" 7 1;
            Sample.operation "did1" 3 2]
           Sample.store Sample.emptyDb).
  - unfold ready. split; [reflexivity | split; [left |]; reflexivity].
  - reflexivity.
  - repeat constructor.
  - repeat constructor; cbn; lia.
  - cbn. repeat constructor; cbn; intuition discriminate.
Defined.

End RoundTripWitnesses.

Section GetFacts.

Import MongoDbOperationStore State.

Variable didUniqueSuffixOf : list byte -> string.

Lemma sorted_strict (l : list Operation.found) :
  Sorted ascendingByNumber l ->
  NoDup (map (fun o => Long.integer (Operation.transactionNumber o)) l) ->
  Sorted Operation.le l.
Proof.
  induction 1 as [| a l Hs IH Hhd]; intros Hnd; [constructor |].
  inversion Hnd as [| k ks Ha Hl]; subst.
  constructor; [now apply IH |].
  destruct Hhd as [| b l Hab]; constructor.
  unfold ascendingByNumber in Hab. left.
  assert (Long.integer (Operation.transactionNumber a)
          <> Long.integer (Operation.transactionNumber b)).
  { intros E. apply Ha. cbn. now left. }
  lia.
Qed.

Lemma distinct_images {A B C : Type} (f : A -> B) (g : A -> C) (l : list A) :
  (forall x y, g x = g y -> f x = f y) ->
  NoDup (map f l) -> NoDup (map g l).
Proof.
  intros Hfg. induction l as [| x l IH]; cbn; intros Hnd; [constructor |].
  inversion Hnd as [| k ks Hx Hl]; subst.
  constructor; [| now apply IH].
  intros Hin. apply Hx. apply in_map_iff in Hin.
  destruct Hin as [y [Hy Hyl]]. apply in_map_iff. exists y.
  split; [now apply Hfg | exact Hyl].
Qed.

(** X17: [get] resolves with exactly the stored records of the DID, each
    once, in ascending order of transaction number; for a DID without a
    stored record that is the empty list. *)
Theorem get_returns_each_record_once (did : string) (this : t)
    (db : Mongo.Db) :
  ready this db ->
  exists result,
    get didUniqueSuffixOf did this db = Js.Resolved result /\
    Permutation
      (map (convertToOperation didUniqueSuffixOf)
           (filter (fun d => (IMongoOperation.didUniqueSuffix d =? did)%string)
                   (stored this db)))
      result /\
    Sorted ascendingByNumber result /\
    ((forall d, In d (stored this db) ->
                IMongoOperation.didUniqueSuffix d <> did) -> result = []).
Proof.
  intros Hr.
  destruct (get_resolves didUniqueSuffixOf did this db Hr)
    as [result [Hget [Hperm Hsorted]]].
  exists result. repeat split; try assumption.
  intros Hnone.
  pose proof (get_unknown_did didUniqueSuffixOf did this db Hr Hnone) as H0.
  rewrite Hget in H0. now injection H0.
Qed.

(** X18: when no two stored records of the DID share a transaction number,
    the answer of [get] ascends by (transactionNumber, operationIndex), as
    its documentation says. *)
Theorem get_ordered_when_numbers_differ (did : string) (this : t)
    (db : Mongo.Db) :
  ready this db ->
  NoDup (map (fun d => Long.value (IMongoOperation.transactionNumber d))
             (filter (fun d => (IMongoOperation.didUniqueSuffix d =? did)%string)
                     (stored this db))) ->
  exists result,
    get didUniqueSuffixOf did this db = Js.Resolved result /\
    Sorted Operation.le result.
Proof.
  intros Hr Hnd.
  destruct (get_resolves didUniqueSuffixOf did this db Hr)
    as [result [Hget [Hperm Hsorted]]].
  exists result. split; [exact Hget |].
  apply sorted_strict; [exact Hsorted |].
  apply (Permutation_map
           (fun o => Long.integer (Operation.transactionNumber o))) in Hperm.
  rewrite map_map in Hperm.
  eapply Permutation_NoDup; [exact Hperm |].
  erewrite map_ext; [exact Hnd |].
  intros d. cbn. apply integer_promote.
Qed.

End GetFacts.

Section GetWitnesses.

Import MongoDbOperationStore State.

Lemma get_returns_each_record_once_witness :
  let db := Sample.dbWith [Sample.operation "did1" 2 0;
                           Sample.operation "did2" 1 0] in
  exists result,
    get Sample.didUniqueSuffixOf "did3" Sample.store db = Js.Resolved result /\
    Permutation
      (map (convertToOperation Sample.didUniqueSuffixOf)
           (filter (fun d => (IMongoOperation.didUniqueSuffix d =? "did3")%string)
                   (stored Sample.store db)))
      result /\
    Sorted ascendingByNumber result /\
    ((forall d, In d (stored Sample.store db) ->
                IMongoOperation.didUniqueSuffix d <> "did3"%string) ->
     result = []).
Proof.
  apply (get_returns_each_record_once Sample.didUniqueSuffixOf "did3"
           Sample.store).
  unfold ready. split; [reflexivity | split; [left |]; reflexivity].
Defined.

Lemma get_ordered_when_numbers_differ_witness :
  let db := Sample.dbWith [Sample.operation "did1" 9 0;
                           Sample.operation "did2" 9 0;
                           Sample.operation "did1" 4 3] in
  exists result,
    get Sample.didUniqueSuffixOf "did1" Sample.store db = Js.Resolved result /\
    Sorted Operation.le result.
Proof.
  apply (get_ordered_when_numbers_differ Sample.didUniqueSuffixOf "did1"
           Sample.store).
  - unfold ready. split; [reflexivity | split; [left |]; reflexivity].
  - cbn. repeat constructor; cbn; intuition discriminate.
Defined.

End GetWitnesses.

Section Saturation.

Import MongoDbOperationStore State.

Lemma fromNumber_high (v : Z) :
  2 ^ 63 - 1 <= v -> Long.fromNumber v = Long.MAX_VALUE.
Proof.
  intros Hv. unfold Long.fromNumber, Long.TWO_PWR_63.
  destruct (v <=? - 2 ^ 63) eqn:E1; [apply Z.leb_le in E1; lia |].
  destruct (v + 1 >=? 2 ^ 63) eqn:E2; [reflexivity |].
  rewrite Z.geb_leb in E2. apply Z.leb_gt in E2. lia.
Qed.

(** X19: transaction numbers at or beyond the upper end of the range of a
    long are all stored as 2^63 - 1, so records of one DID and one operation
    index that differ only in such numbers collide: once one is stored,
    [put] of another resolves and stores nothing. *)
Theorem numbers_beyond_range_collide (o1 o2 : Operation.t) (this : t)
    (db : Mongo.Db) :
  ready this db ->
  In (convertToMongoOperation o1) (stored this db) ->
  Operation.didUniqueSuffix o1 = Operation.didUniqueSuffix o2 ->
  Operation.operationIndex o1 = Operation.operationIndex o2 ->
  2 ^ 63 - 1 <= Operation.transactionNumber o1 ->
  2 ^ 63 - 1 <= Operation.transactionNumber o2 ->
  put [o2] this db = (db, Js.Resolved tt).
Proof.
  intros [Hh [Hin Hi]] Hs Hd Hx H1 H2.
  unfold put, put_with. rewrite Hh.
  unfold Mongo.execute. cbn [map Mongo.insertAll].
  rewrite (insertOne_stored (convertToMongoOperation o2) _ Hi).
  - cbn. now rewrite update_same.
  - apply in_map_iff. exists (convertToMongoOperation o1).
    split; [| exact Hs].
    unfold docKey, convertToMongoOperation; cbn.
    now rewrite (fromNumber_high _ H1), (fromNumber_high _ H2), Hd, Hx.
Qed.

Lemma numbers_beyond_range_collide_witness :
  let o1 := Sample.operation "did1" (2 ^ 63) 0 in
  let o2 := Sample.operation "did1" (2 ^ 64) 0 in
  put [o2] Sample.store (Sample.dbWith [o1])
  = (Sample.dbWith [o1], Js.Resolved tt).
Proof.
  apply (numbers_beyond_range_collide (Sample.operation "did1" (2 ^ 63) 0)).
  - unfold ready. split; [reflexivity | split; [left |]; reflexivity].
  - left. reflexivity.
  - reflexivity.
  - reflexivity.
  - cbn. lia.
  - cbn. lia.
Defined.

End Saturation.

Section AnyAnswer.

Import MongoDbOperationStore State.

Variable didUniqueSuffixOf : list byte -> string.

(** X20: the properties of [get] do not hang on how the driver orders
    documents its sort specification does not tell apart.  Every answer the
    sort contract allows holds exactly the stored records of the DID, each
    once, in ascending order of transaction number, and ascends by
    (transactionNumber, operationIndex) when no two of these records share a
    transaction number. *)
Theorem every_answer_of_get (did : string) (this : t) (db : Mongo.Db)
    (result : list Operation.found) :
  collection this = Some (operationCollectionName this) ->
  get_may_return didUniqueSuffixOf did this db result ->
  Permutation
    (map (convertToOperation didUniqueSuffixOf)
         (filter (fun d => (IMongoOperation.didUniqueSuffix d =? did)%string)
                 (stored this db)))
    result /\
  Sorted ascendingByNumber result /\
  (NoDup (map Operation.transactionNumber result) -> Sorted Operation.le result).
Proof.
  intros Hh [h [docs [Hh' [[Hperm Hsorted] Hres]]]].
  rewrite Hh in Hh'. injection Hh' as Hh'. subst h result.
  assert (Hs : Sorted ascendingByNumber
                 (map (convertToOperation didUniqueSuffixOf) docs)).
  { apply (sorted_map (Mongo.before GET_SORT)); [| exact Hsorted].
    intros a b. unfold Mongo.before, ascendingByNumber.
    rewrite get_sort_compares_numbers. cbn. rewrite !integer_promote.
    intros H. apply Z.compare_le_iff. exact H. }
  split; [| split; [exact Hs |]].
  2: { intros Hnd. apply sorted_strict; [exact Hs |].
       rewrite map_map in *.
       apply (distinct_images
                (fun d => Operation.transactionNumber
                            (convertToOperation didUniqueSuffixOf d)));
         [| exact Hnd].
       intros x y Hxy. cbn in *. rewrite !integer_promote in Hxy.
       f_equal. destruct (IMongoOperation.transactionNumber x),
                         (IMongoOperation.transactionNumber y).
       cbn in Hxy. now subst. }
  apply Permutation_map. unfold Mongo.find in Hperm.
  rewrite (filter_ext _ _ (get_filter_matches did)) in Hperm. exact Hperm.
Qed.

End AnyAnswer.

Section AnyAnswerWitness.

Import MongoDbOperationStore State.

Lemma every_answer_of_get_witness :
  let a := Sample.operation "did1" 1 1 in
  let b := Sample.operation "did1" 1 0 in
  let db := Sample.dbWith [a; b] in
  let answer := [Operation.asFound b; Operation.asFound a] in
  Permutation
    (map (convertToOperation Sample.didUniqueSuffixOf)
         (filter (fun d => (IMongoOperation.didUniqueSuffix d =? "did1")%string)
                 (stored Sample.store db)))
    answer /\
  Sorted ascendingByNumber answer /\
  (NoDup (map Operation.transactionNumber answer) -> Sorted Operation.le answer).
Proof.
  apply (every_answer_of_get Sample.didUniqueSuffixOf "did1" Sample.store
           (Sample.dbWith [Sample.operation "did1" 1 1;
                           Sample.operation "did1" 1 0])).
  - reflexivity.
  - exists "operations"%string.
    exists [convertToMongoOperation (Sample.operation "did1" 1 0);
            convertToMongoOperation (Sample.operation "did1" 1 1)].
    split; [reflexivity |]. split; [| reflexivity].
    split.
    + apply perm_swap.
    + repeat constructor; unfold Mongo.before; cbn; discriminate.
Defined.

End AnyAnswerWitness.
